(** * Empathetic code reviewer: the feedback transformation pipeline

    A shallow embedding of [empathetic_code_reviewer/advanced_reviewer.py]
    (with the summary of [ultimate_reviewer.py] and the request validation of
    [web_interface.py]) and the properties of its severity classifier,
    pattern detector, tone selector, encouragement policy and composer.

    Text is a [string]: a sequence of 8-bit characters, non-ASCII text being
    carried as its UTF-8 bytes.  Lower-casing and the character classes of
    the regular expressions act on the ASCII range, where they are those of
    Python, and leave the other bytes alone; the keyword tables and the
    patterns of the program are ASCII.  Dicts are lists of items in
    insertion order, which is the order Python iterates them in. *)

From Stdlib Require Import String Ascii List Bool Arith ZArith QArith Lia.
From Stdlib Require Import DecimalString.
From Stdlib Require Import DecimalNat Permutation.
Import ListNotations.

Close Scope Q_scope.
Open Scope list_scope.
Open Scope string_scope.

(** ** Python text operations *)

(** [chr(10)], the line separator of the templates. *)
Definition newline : string := String (ascii_of_nat 10) EmptyString.

(** The double quote character, as a one-character text. *)
Definition dquote : string := String (ascii_of_nat 34) EmptyString.

(** [str(n)] for a natural number, as an f-string prints it. *)
Definition str_nat (n : nat) : string :=
  NilEmpty.string_of_uint (Nat.to_uint n).

(** [str(z)] for an integer. *)
Definition str_int (z : Z) : string :=
  NilEmpty.string_of_int (Z.to_int z).

(** [c.lower()] on one character: the letters A to Z move to a to z. *)
Definition lower_ascii (c : ascii) : ascii :=
  let n := nat_of_ascii c in
  if ((65 <=? n)%nat && (n <=? 90)%nat)%bool then ascii_of_nat (n + 32) else c.

(** [s.lower()]. *)
Fixpoint lower (s : string) : string :=
  match s with
  | EmptyString => EmptyString
  | String c rest => String (lower_ascii c) (lower rest)
  end.

(** [s.startswith(p)]. *)
Fixpoint startswith (p s : string) : bool :=
  match p with
  | EmptyString => true
  | String a p' =>
      match s with
      | EmptyString => false
      | String b s' => Ascii.eqb a b && startswith p' s'
      end
  end.

(** [needle in hay] on texts: [needle] occurs at some position of [hay]. *)
Fixpoint contains (needle hay : string) : bool :=
  startswith needle hay ||
  match hay with
  | EmptyString => false
  | String _ rest => contains needle rest
  end.

(** [sep.join(items)]. *)
Fixpoint join (sep : string) (items : list string) : string :=
  match items with
  | [] => EmptyString
  | [x] => x
  | x :: rest => x ++ sep ++ join sep rest
  end.

(** [enumerate(items)] from a start index: the pairs (index, item). *)
Fixpoint enumerate_from {A : Type} (start : nat) (items : list A)
  : list (nat * A) :=
  match items with
  | [] => []
  | x :: rest => (start, x) :: enumerate_from (S start) rest
  end.

Definition enumerate {A : Type} (items : list A) : list (nat * A) :=
  enumerate_from 0 items.

(** ** Severity classifier *)

Inductive CommentSeverity : Type :=
  | GENTLE
  | MODERATE
  | HARSH
  | CRITICAL.

(** The value of each member of the enumeration. *)
Definition value (s : CommentSeverity) : string :=
  match s with
  | GENTLE => "gentle"
  | MODERATE => "moderate"
  | HARSH => "harsh"
  | CRITICAL => "critical"
  end.

Definition CommentSeverity_eqb (a b : CommentSeverity) : bool :=
  match a, b with
  | GENTLE, GENTLE | MODERATE, MODERATE | HARSH, HARSH
  | CRITICAL, CRITICAL => true
  | _, _ => false
  end.

(** [self.severity_keywords]: a dict, iterated in insertion order. *)
Definition severity_keywords : list (CommentSeverity * list string) :=
  [ (CRITICAL, ["terrible"; "awful"; "horrible"; "stupid"; "idiotic"; "garbage"]);
    (HARSH, ["bad"; "wrong"; "inefficient"; "poor"; "sloppy"; "messy"]);
    (MODERATE, ["should"; "could"; "consider"; "might want to"; "try"]);
    (GENTLE, ["perhaps"; "maybe"; "suggestion"; "alternatively"]) ].

(** The loop of [analyze_comment_severity] over the items of the table: the
    first entry one of whose keywords occurs in the lowered comment. *)
Fixpoint first_severity (items : list (CommentSeverity * list string))
  (comment_lower : string) : option CommentSeverity :=
  match items with
  | [] => None
  | (severity, keywords) :: rest =>
      if existsb (fun keyword => contains keyword comment_lower) keywords
      then Some severity
      else first_severity rest comment_lower
  end.

Definition analyze_comment_severity (comment : string) : CommentSeverity :=
  let comment_lower := lower comment in
  match first_severity severity_keywords comment_lower with
  | Some severity => severity
  | None => GENTLE
  end.

(** ** Regular expressions

    The fragment of Python's [re] syntax that [code_patterns] is written in.
    Every repetition of the table is over a single character class. *)

Inductive char_class : Type :=
  | AnyChar                        (* .     : every character but a line feed *)
  | Space                          (* \s *)
  | Digit                          (* \d *)
  | Range (lo hi : ascii).         (* [lo-hi] *)

Inductive regex : Type :=
  | Lit (text : string)                   (* the characters of text, in a row *)
  | One (c : char_class)                  (* one character of the class *)
  | AtLeast (min : nat) (c : char_class)  (* c{min,}: * is 0, + is 1 *)
  | Cat (r1 r2 : regex)                   (* r1 r2 *)
  | Alt (r1 r2 : regex)                   (* r1|r2 *)
  | WordBoundary                          (* \b *)
  | NotAhead (r : regex).                 (* (?!r) *)

Definition between (lo n hi : nat) : bool := ((lo <=? n)%nat && (n <=? hi)%nat)%bool.

Definition is_digit (a : ascii) : bool := between 48 (nat_of_ascii a) 57.

(** White space: tab, line feed, vertical tab, form feed, carriage return,
    the four separators 28 to 31 and the blank. *)
Definition is_space (a : ascii) : bool :=
  let n := nat_of_ascii a in
  between 9 n 13 || between 28 n 32.

(** [\w]: letters, digits and the underscore. *)
Definition is_word (a : ascii) : bool :=
  let n := nat_of_ascii a in
  between 48 n 57 || between 65 n 90 || between 97 n 122 || (n =? 95)%nat.

Definition in_class (c : char_class) (a : ascii) : bool :=
  match c with
  | AnyChar => negb (nat_of_ascii a =? 10)%nat
  | Space => is_space a
  | Digit => is_digit a
  | Range lo hi => between (nat_of_ascii lo) (nat_of_ascii a) (nat_of_ascii hi)
  end.

(** A position in the subject: the character before it, if any, and the
    text from it on. *)
Definition word_before (prev : option ascii) : bool :=
  match prev with
  | Some a => is_word a
  | None => false
  end.

Definition word_after (s : string) : bool :=
  match s with
  | String a _ => is_word a
  | EmptyString => false
  end.

(** Reads the literal [text] at the position, giving the position after. *)
Fixpoint eat (text : string) (prev : option ascii) (s : string)
  : option (option ascii * string) :=
  match text with
  | EmptyString => Some (prev, s)
  | String a text' =>
      match s with
      | EmptyString => None
      | String b s' => if Ascii.eqb a b then eat text' (Some b) s' else None
      end
  end.

(** [c{min,}] at a position, longest run first, then the continuation [k]
    on what is left. *)
Fixpoint at_least (c : char_class) (min : nat) (prev : option ascii)
  (s : string) (k : option ascii -> string -> bool) : bool :=
  let stop := ((min =? 0)%nat && k prev s)%bool in
  match s with
  | EmptyString => stop
  | String a rest =>
      if in_class c a
      then at_least c (Nat.pred min) (Some a) rest k || stop
      else stop
  end.

(** A backtracking matcher in continuation-passing style: [matches r prev s k]
    holds when [r] matches some prefix of [s] (with [prev] the character
    before it) and [k] accepts the position after that prefix. *)
Fixpoint matches (r : regex) (prev : option ascii) (s : string)
  (k : option ascii -> string -> bool) : bool :=
  match r with
  | Lit text =>
      match eat text prev s with
      | Some (prev', s') => k prev' s'
      | None => false
      end
  | One c =>
      match s with
      | EmptyString => false
      | String a rest => in_class c a && k (Some a) rest
      end
  | AtLeast min c => at_least c min prev s k
  | Cat r1 r2 => matches r1 prev s (fun prev' s' => matches r2 prev' s' k)
  | Alt r1 r2 => matches r1 prev s k || matches r2 prev s k
  | WordBoundary => xorb (word_before prev) (word_after s) && k prev s
  | NotAhead r' => negb (matches r' prev s (fun _ _ => true)) && k prev s
  end.

Definition match_here (r : regex) (prev : option ascii) (s : string) : bool :=
  matches r prev s (fun _ _ => true).

(** The scan of [re.search]: a match at this position or at a later one. *)
Fixpoint search_from (r : regex) (prev : option ascii) (s : string) : bool :=
  match_here r prev s ||
  match s with
  | EmptyString => false
  | String a rest => search_from r (Some a) rest
  end.

(** [bool(re.search(r, code, re.MULTILINE))]; the flag changes the meaning
    of the anchors only, and the patterns have none. *)
Definition re_search (r : regex) (code : string) : bool :=
  search_from r None code.

Declare Scope regex_scope.
Delimit Scope regex_scope with re.
Bind Scope regex_scope with regex.
Infix "·" := Cat (at level 40, left associativity) : regex_scope.

(** ** Pattern detector *)

Definition az : char_class := Range "a"%char "z"%char.

(** The regular expressions of [self.code_patterns]. *)

(* for .+ in .+:\s*if .+:\s*.+\.append *)
Definition list_comprehension : regex :=
  (Lit "for " · AtLeast 1 AnyChar · Lit " in " · AtLeast 1 AnyChar · Lit ":"
   · AtLeast 0 Space · Lit "if " · AtLeast 1 AnyChar · Lit ":"
   · AtLeast 0 Space · AtLeast 1 AnyChar · Lit ".append")%re.

(* == True|== False *)
Definition boolean_redundancy : regex :=
  Alt (Lit "== True") (Lit "== False").

(* \b[a-z]\b(?!\s*=) *)
Definition single_letter_vars : regex :=
  (WordBoundary · One az · WordBoundary
   · NotAhead (AtLeast 0 Space · Lit "="))%re.

(* \b\d{2,}\b *)
Definition magic_numbers : regex :=
  (WordBoundary · AtLeast 2 Digit · WordBoundary)%re.

(* for .+ in .+:\s*for .+ in *)
Definition nested_loops : regex :=
  (Lit "for " · AtLeast 1 AnyChar · Lit " in " · AtLeast 1 AnyChar · Lit ":"
   · AtLeast 0 Space · Lit "for " · AtLeast 1 AnyChar · Lit " in")%re.

(** [self.code_patterns], in insertion order. *)
Definition code_patterns : list (string * regex) :=
  [ ("list_comprehension", list_comprehension);
    ("boolean_redundancy", boolean_redundancy);
    ("single_letter_vars", single_letter_vars);
    ("magic_numbers", magic_numbers);
    ("nested_loops", nested_loops) ].

(** The dict [patterns_found], as the list of its items in insertion
    order. *)
Definition detect_code_patterns (code : string) : list (string * bool) :=
  map (fun '(pattern_name, regex) => (pattern_name, re_search regex code))
      code_patterns.

(** [d[key]] on a dict given by its items. *)
Fixpoint lookup {V : Type} (key : string) (items : list (string * V))
  : option V :=
  match items with
  | [] => None
  | (k, v) :: rest => if String.eqb k key then Some v else lookup key rest
  end.

(** ** Tone selector *)

(** What a caller can pass where a severity is expected: a member of the
    enumeration or another hashable object. *)
Inductive object : Type :=
  | Member (severity : CommentSeverity)
  | NoneObject
  | Str (text : string).

(** The dict [tone_map] of [get_contextual_tone]. *)
Definition tone_map : list (CommentSeverity * string) :=
  [ (CRITICAL, "I understand this feedback might have felt harsh. Let's reframe it constructively");
    (HARSH, "This is actually a great learning opportunity");
    (MODERATE, "Good observation! Here's how we can build on it");
    (GENTLE, "Nice suggestion! Let's explore this further") ].

(** [d.get(key, default)] on a dict keyed by severities. *)
Fixpoint dict_get (items : list (CommentSeverity * string)) (key : object)
  (default : string) : string :=
  match items with
  | [] => default
  | (k, v) :: rest =>
      match key with
      | Member s => if CommentSeverity_eqb k s then v else dict_get rest key default
      | _ => dict_get rest key default
      end
  end.

Definition get_contextual_tone (severity : object) : string :=
  dict_get tone_map severity "Let's look at this feedback".

(** ** Composer: the instructions for the completion collaborator *)

(** The list [severity_analysis] after the loop of [create_master_prompt]:
    one line appended for each comment of the enumeration. *)
Definition severity_analysis (comments : list string) : list string :=
  fold_left
    (fun analysis '(i, comment) =>
       let severity := analyze_comment_severity comment in
       let tone := get_contextual_tone (Member severity) in
       let line := "Comment " ++ str_nat (i + 1) ++ ": " ++ value severity
                   ++ " severity - " ++ tone in
       (analysis ++ [line])%list)
    (enumerate comments) [].

(** The items joined into [comments_list]. *)
Definition numbered_comments (comments : list string) : list string :=
  map (fun '(i, comment) => str_nat (i + 1) ++ ". " ++ dquote ++ comment ++ dquote)
      (enumerate comments).

Definition active_patterns (code_snippet : string) : list string :=
  let patterns := detect_code_patterns code_snippet in
  map fst (filter (fun '(k, v) => v) patterns).

Definition create_master_prompt (code_snippet : string) (comments : list string)
  : string :=
  let active_patterns := active_patterns code_snippet in
  let severity_analysis := severity_analysis comments in
  let comments_list := join newline (numbered_comments comments) in
  let severity_list := join newline severity_analysis in
  let detected :=
    match active_patterns with
    | [] => "Clean basic structure"
    | _ :: _ => join ", " active_patterns
    end in
  let first_comment :=
    match comments with
    | [] => "PLACEHOLDER"
    | comment :: _ => comment
    end in
  "You are a world-class senior software engineer and mentor known for transforming junior developers into confident programmers. You have a gift for turning criticism into growth opportunities.

**CODE ANALYSIS:**
```python
"
  ++ code_snippet
  ++ "
```

**DETECTED PATTERNS:** "
  ++ detected
  ++ "

**COMMENT SEVERITY ANALYSIS:**
"
  ++ severity_list
  ++ "

**ORIGINAL COMMENTS TO TRANSFORM:**
"
  ++ comments_list
  ++ "

**YOUR MISSION:**
Transform each comment into a mentoring masterpiece. For each comment, create:

---
### 🔍 Analysis of Comment: "
  ++ dquote
  ++ first_comment
  ++ dquote
  ++ "

**💚 Positive Rephrasing:**
[Start with genuine praise for what they got right, then gently introduce the improvement. Match your tone to the original comment's severity - be extra encouraging for harsh comments]

**🧠 The 'Why' (Software Engineering Principle):**
[Explain the deeper principle: performance, readability, maintainability, team collaboration, debugging ease, etc. Include specific impacts like "
  ++ dquote
  ++ "with 10,000+ users, this could save 2 seconds per request"
  ++ dquote
  ++ "]

**✨ Suggested Improvement:**
```python
[Show the improved code with clear comments explaining the changes]
```

**📚 Learning Resources:**
- [Specific PEP-8 section, documentation, or concept link]
- [Additional learning resource if relevant]

**🎯 Pro Tip:** [One advanced insight that shows deep understanding]

---

**ADVANCED REQUIREMENTS:**
1. Adjust tone based on comment severity (harsher comments need more encouragement)
2. Reference the detected code patterns naturally
3. Provide specific performance/readability impacts
4. Include at least one "
  ++ dquote
  ++ "pro tip"
  ++ dquote
  ++ " that shows senior-level insight
5. Use emojis strategically for visual appeal and engagement
6. End each section with actionable next steps

**TONE CALIBRATION:**
- Critical/Harsh comments: Extra encouraging, emphasize learning journey
- Moderate comments: Collaborative and educational
- Gentle comments: Build on the good observation

Create the analysis for ALL comments now:".

(** ** Completion collaborator *)

(** What a call that may raise gives: a value, an exception of the class
    [requests.exceptions.RequestException], or another exception; the text
    is the exception's message. *)
Inductive attempt (A : Type) : Type :=
  | Value (a : A)
  | RequestException (e : string)
  | OtherException (e : string).

Arguments Value {A} a.
Arguments RequestException {A} e.
Arguments OtherException {A} e.

(** The reply to the POST: its status and what evaluating
    [response.json()['response']] gives. *)
Record response : Type := {
  status_code : Z;
  json_response : attempt string
}.

(** ** Encouragement policy and closing summary *)

Inductive encouragement : Type :=
  | extra_high
  | high
  | standard.

Definition is_harsh_or_critical (severity : CommentSeverity) : bool :=
  existsb (CommentSeverity_eqb severity) [HARSH; CRITICAL].

(** [sum(1 for comment in comments if ... in [HARSH, CRITICAL])]. *)
Definition total_severity (comments : list string) : Z :=
  fold_left
    (fun total comment =>
       if is_harsh_or_critical (analyze_comment_severity comment)
       then (total + 1)%Z else total)
    comments 0%Z.

Definition len {A : Type} (items : list A) : Z := Z.of_nat (List.length items).

Definition Qlt_bool (x y : Q) : bool := negb (Qle_bool y x).

(** The branch on [total_severity > len(comments) * 0.6].  The product is
    taken in the rationals; Python takes it in binary64, where it has the
    same order with every integer as long as the list has fewer than 2^50
    comments. *)
Definition encouragement_level (comments : list string) : encouragement :=
  let total_severity := total_severity comments in
  if Qlt_bool (inject_Z (len comments) * 0.6)%Q (inject_Z total_severity)
  then extra_high
  else if (0 <? total_severity)%Z then high
  else standard.

Module Advanced.

Definition summary_prompts (level : encouragement) : string :=
  match level with
  | extra_high => "This developer faced some tough feedback but shows solid problem-solving instincts. Focus on the growth journey and celebrate their logical thinking."
  | high => "This developer is on a great learning path with some excellent fundamentals. The improvements suggested will level up their skills significantly."
  | standard => "This developer writes clean, logical code and is ready for some advanced optimizations. Great foundation to build upon!"
  end.

Definition create_summary_analysis (code_snippet : string)
  (comments : list string) : string :=
  let patterns := detect_code_patterns code_snippet in
  let encouragement_level := encouragement_level comments in
  "
## 🌟 Overall Growth Summary & Next Steps

"
++ summary_prompts encouragement_level
++ "

**🎯 Key Themes from This Review:**
- **Code Organization**: Moving toward more Pythonic patterns
- **Performance Awareness**: Understanding computational complexity
- **Readability Focus**: Writing code that tells a story

**🚀 Recommended Learning Path:**
1. **This Week**: Practice list comprehensions and boolean operations
2. **Next Week**: Dive deeper into Python's built-in functions and itertools
3. **This Month**: Explore algorithmic complexity and optimization patterns

**💡 Senior Developer Insight:**
The patterns in this code suggest you're thinking algorithmically, which is fantastic! The next level is thinking about code as communication - every variable name, every function structure should tell your future self (and your teammates) a clear story.

---
*Remember: Every expert was once a beginner. The fact that you're actively seeking feedback shows you're on the path to mastery! 🌟*
".

End Advanced.

Module Ultimate.

Inductive AIEngine : Type :=
  | GEMINI
  | OLLAMA
  | AUTO.

Definition AIEngine_eqb (a b : AIEngine) : bool :=
  match a, b with
  | GEMINI, GEMINI | OLLAMA, OLLAMA | AUTO, AUTO => true
  | _, _ => false
  end.

Definition summary_prompts (level : encouragement) : string :=
  match level with
  | extra_high => "This developer faced some tough feedback but shows solid problem-solving instincts. The logical thinking is there - now it's about refining the expression."
  | high => "This developer is on a great learning trajectory with excellent fundamentals. These optimizations will level up their Python skills significantly."
  | standard => "This developer writes clean, logical code and is ready for advanced optimizations. Excellent foundation to build upon!"
  end.

(** [self.engine] is the only state of the reviewer the summary reads. *)
Definition create_summary_analysis (engine : AIEngine)
  (code_snippet : string) (comments : list string) : string :=
  let patterns := detect_code_patterns code_snippet in
  let encouragement_level := encouragement_level comments in
  let engine_info :=
    if AIEngine_eqb engine GEMINI then "Google Gemini" else "Local Llama 3.1" in
  "
## 🌟 Overall Growth Summary & Next Steps

"
++ summary_prompts encouragement_level
++ "

**🎯 Key Learning Themes:**
- **Pythonic Patterns**: Embracing list comprehensions and built-in functions
- **Performance Awareness**: Understanding when efficiency matters
- **Code Readability**: Writing self-documenting code

**🚀 Personalized Learning Path:**
1. **This Week**: Master list comprehensions and boolean operations
2. **Next 2 Weeks**: Explore Python's itertools and functional programming features  
3. **This Month**: Study algorithmic complexity and profiling techniques

**💡 Senior Developer Wisdom:**
The fact that you're actively seeking feedback shows tremendous growth mindset! These patterns suggest you think algorithmically (fantastic!) - the next level is thinking about code as communication. Every line should tell a story to your future self and teammates.

**🏆 You're Ready For:**
- Contributing to open source Python projects
- Mentoring other developers on fundamentals
- Taking on more complex algorithmic challenges

---
*"
++ dquote
++ "Every expert was once a beginner. Every pro was once an amateur. Every icon was once an unknown."
++ dquote
++ " - Robin Sharma*

*Generated by Ultimate Empathetic Code Reviewer v3.0 | Powered by "
++ engine_info
++ "*  
*Built for developers, by developers* ✨
".

End Ultimate.

(** ** Requests and the report *)

(** The loaded JSON object, read at its two keys: a key is absent or holds
    a value of the type the interface gives it. *)
Record input_data : Type := {
  code_snippet : option string;
  review_comments : option (list string)
}.

Inductive exception : Type :=
  | KeyError (key : string)
  | ValueError (message : string).

Inductive outcome (A : Type) : Type :=
  | Returns (a : A)
  | Raises (e : exception).

Arguments Returns {A} a.
Arguments Raises {A} e.

(** [key in input_data]. *)
Definition has_key (key : string) (data : input_data) : bool :=
  if String.eqb key "code_snippet" then
    match code_snippet data with Some _ => true | None => false end
  else if String.eqb key "review_comments" then
    match review_comments data with Some _ => true | None => false end
  else false.

Section Reviewer.

(** [requests.post] to the local model, as a function of the prompt. *)
Variable post : string -> attempt response.

Definition call_ollama (prompt : string) : string :=
  match post prompt with
  | Value response =>
      if (status_code response =? 200)%Z then
        match json_response response with
        | Value text => text
        | RequestException e => "Connection error: " ++ e
        | OtherException e => "Unexpected error: " ++ e
        end
      else "API Error: " ++ str_int (status_code response)
  | RequestException e => "Connection error: " ++ e
  | OtherException e => "Unexpected error: " ++ e
  end.

(** The f-string of [process_review]. *)
Definition report_of (code_snippet ai_response summary : string) : string :=
  "# 🌟 Empathetic Code Review Report

*Transforming criticism into growth opportunities*

## 📝 Original Code Under Review
```python
"
++ code_snippet
++ "
```

"
++ ai_response
++ "

"
++ summary
++ "

---
**🛠 Generated by Advanced Empathetic Code Reviewer v2.0**
*Built for the "
++ dquote
++ "Freedom from Mundane"
++ dquote
++ " Hackathon*
".

Definition process_review (data : input_data) : outcome string :=
  match code_snippet data with
  | None => Raises (KeyError "code_snippet")
  | Some code_snippet =>
      match review_comments data with
      | None => Raises (KeyError "review_comments")
      | Some review_comments =>
          let master_prompt := create_master_prompt code_snippet review_comments in
          let ai_response := call_ollama master_prompt in
          let summary :=
            Advanced.create_summary_analysis code_snippet review_comments in
          Returns (report_of code_snippet ai_response summary)
      end
  end.

(** The validation loop of [main] over [required_keys]. *)
Fixpoint validate (required_keys : list string) (data : input_data)
  : outcome unit :=
  match required_keys with
  | [] => Returns tt
  | key :: rest =>
      if has_key key data then validate rest data
      else Raises (ValueError ("Missing required key: " ++ key))
  end.

(** [main] from the loaded input to the text it writes to the report
    file; an exception leaves through the handlers, which print it and
    exit with status 1. *)
Definition main (data : input_data) : outcome string :=
  match validate ["code_snippet"; "review_comments"] data with
  | Raises e => Raises e
  | Returns _ => process_review data
  end.

End Reviewer.

Module Web.

Inductive reply : Type :=
  | Report (status : Z) (report : string)
  | Error (status : Z) (error : string).

Definition str_exception (e : exception) : string :=
  match e with
  | KeyError key => "'" ++ key ++ "'"
  | ValueError message => message
  end.

Section Route.

(** The reviewer the route builds and its [process_review]. *)
Variable process_review : input_data -> outcome string.

(** [review_code], from the JSON body of the request. *)
Definition review_code (data : input_data) : reply :=
  let code_snippet' :=
    match code_snippet data with Some text => text | None => EmptyString end in
  let comments :=
    match review_comments data with Some items => items | None => [] end in
  if (String.eqb code_snippet' EmptyString
      || match comments with [] => true | _ :: _ => false end)%bool
  then Error 400 "Code snippet and comments required"
  else
    match process_review {| code_snippet := Some code_snippet';
                            review_comments := Some comments |} with
    | Returns result => Report 200 result
    | Raises e => Error 500 (str_exception e)
    end.

End Route.

End Web.


(** ** Vocabulary of the properties *)

(** The text [t] stands verbatim somewhere in [s]. *)
Definition occurs_in (t s : string) : Prop :=
  exists before after, s = before ++ t ++ after.

(** The texts of [blocks] stand verbatim in [s], one after the other, in
    the order of the list and without overlap. *)
Inductive in_order : list string -> string -> Prop :=
  | in_order_nil (s : string) : in_order [] s
  | in_order_cons (before block : string) (blocks : list string) (rest : string) :
      in_order blocks rest ->
      in_order (block :: blocks) (before ++ block ++ rest).

(** Some stretch of [comment] is [keyword] up to the case of its letters
    ([keyword] being in lower case). *)
Definition occurs_ignoring_case (keyword comment : string) : Prop :=
  exists before word after,
    comment = before ++ word ++ after /\ lower word = keyword.

(** Harshness: GENTLE < MODERATE < HARSH < CRITICAL. *)
Definition rank (s : CommentSeverity) : nat :=
  match s with
  | GENTLE => 0
  | MODERATE => 1
  | HARSH => 2
  | CRITICAL => 3
  end.

(** [self.severity_keywords[s]]. *)
Definition keywords_of (s : CommentSeverity) : list string :=
  match find (fun item => CommentSeverity_eqb (fst item) s) severity_keywords with
  | Some item => snd item
  | None => []
  end.

Definition has_keyword (s : CommentSeverity) (comment : string) : Prop :=
  exists keyword, In keyword (keywords_of s) /\ occurs_ignoring_case keyword comment.

(** The decision of [has_keyword], as the classifier takes it. *)
Definition has_keywordb (s : CommentSeverity) (comment : string) : bool :=
  existsb (fun keyword => contains keyword (lower comment)) (keywords_of s).



(** The number of comments classified HARSH or CRITICAL. *)
Definition harsh_count (comments : list string) : nat :=
  List.length
    (filter (fun comment =>
               match analyze_comment_severity comment with
               | HARSH | CRITICAL => true
               | GENTLE | MODERATE => false
               end) comments).

(** The call leaves with an exception. *)
Definition fails {A : Type} (o : outcome A) : Prop := exists e, o = Raises e.

(** The code fence the templates put around the snippet. *)
Definition fenced (code_snippet : string) : string :=
  "```python" ++ newline ++ code_snippet ++ newline ++ "```".

(** The line of [severity_analysis] for the comment at index [i]. *)
Definition severity_line (i : nat) (comment : string) : string :=
  let severity := analyze_comment_severity comment in
  "Comment " ++ str_nat (i + 1) ++ ": " ++ value severity ++ " severity - "
  ++ get_contextual_tone (Member severity).

(** The item of [comments_list] for the comment at index [i]. *)
Definition numbered_line (i : nat) (comment : string) : string :=
  str_nat (i + 1) ++ ". " ++ dquote ++ comment ++ dquote.

(** ** The ultimate reviewer: engines, instructions and report *)

(** A run that may leave the program through [sys.exit]. *)
Inductive run (A : Type) : Type :=
  | Done (a : A)
  | SysExit (status : Z).

Arguments Done {A} a.
Arguments SysExit {A} status.

(** What an optional text counts for in a condition: [None] and the empty
    text count as false. *)
Definition truthy (s : option string) : bool :=
  match s with
  | Some (String _ _) => true
  | Some EmptyString | None => false
  end.

(** [a or b] on optional texts. *)
Definition py_or (a b : option string) : option string :=
  if truthy a then a else b.

Module UltimateReviewer.

Import Ultimate.

(** What the reviewer reads from outside: whether the import of the Gemini
    library succeeded, the variable GEMINI_API_KEY of the environment, the
    status (or the exception) of the n-th GET of the Ollama version, and the
    two completion services as functions of the prompt. *)
Record world : Type := {
  GEMINI_AVAILABLE : bool;
  getenv_GEMINI_API_KEY : option string;
  get_version : nat -> attempt Z;
  generate_content : string -> attempt string;
  post : string -> attempt response
}.

(** The state of a reviewer that the methods read. *)
Record reviewer : Type := {
  engine : AIEngine;
  api_key : option string
}.

Section Methods.

Variable w : world.

(** [_check_ollama], at its call number [n]; the bare [except] gives
    False for every exception. *)
Definition _check_ollama (n : nat) : bool :=
  match get_version w n with
  | Value status => (status =? 200)%Z
  | RequestException _ | OtherException _ => false
  end.

(** [_determine_engine]; [calls] counts the version checks made so far,
    and comes back with the engine. *)
Definition _determine_engine (requested : AIEngine) (api_key : option string)
  (calls : nat) : run (AIEngine * nat) :=
  match requested with
  | GEMINI =>
      if negb (GEMINI_AVAILABLE w) then SysExit 1 else Done (GEMINI, calls)
  | OLLAMA =>
      if negb (_check_ollama calls) then SysExit 1 else Done (OLLAMA, S calls)
  | AUTO =>
      if (GEMINI_AVAILABLE w
          && truthy (py_or api_key (getenv_GEMINI_API_KEY w)))%bool
      then Done (GEMINI, calls)
      else if _check_ollama calls then Done (OLLAMA, S calls)
      else SysExit 1
  end.

Definition _init_gemini (self : reviewer) : run unit :=
  if negb (truthy (api_key self)) then SysExit 1 else Done tt.

Definition _init_ollama (calls : nat) : run unit :=
  if negb (_check_ollama calls) then SysExit 1 else Done tt.

(** [UltimateEmpathethicReviewer(engine, api_key)]. *)
Definition __init__ (requested : AIEngine) (key : option string)
  : run reviewer :=
  match _determine_engine requested key 0 with
  | SysExit status => SysExit status
  | Done (selected, calls) =>
      let self := {| engine := selected;
                     api_key := py_or key (getenv_GEMINI_API_KEY w) |} in
      match selected with
      | GEMINI =>
          match _init_gemini self with
          | SysExit status => SysExit status
          | Done _ => Done self
          end
      | OLLAMA =>
          match _init_ollama calls with
          | SysExit status => SysExit status
          | Done _ => Done self
          end
      | AUTO => Done self
      end
  end.

Definition create_master_prompt (code_snippet : string) (comments : list string)
  : string :=
  let active_patterns := active_patterns code_snippet in
  let severity_analysis := severity_analysis comments in
  let comments_list := join newline (numbered_comments comments) in
  let severity_list := join newline severity_analysis in
  let detected :=
    match active_patterns with
    | [] => "Clean basic structure"
    | _ :: _ => join ", " active_patterns
    end in
  "You are a world-class senior software engineer and mentor with 15+ years at companies like Google, Facebook, and startups. You're known for transforming harsh code review feedback into growth opportunities that inspire developers.

**MISSION**: Transform each harsh review comment into empathetic, educational mentoring that helps developers grow.

**CODE UNDER REVIEW:**
```python
"
  ++ code_snippet
  ++ "
```

**DETECTED CODE PATTERNS:** "
  ++ detected
  ++ "

**COMMENT SEVERITY ANALYSIS:**
"
  ++ severity_list
  ++ "

**ORIGINAL COMMENTS TO TRANSFORM:**
"
  ++ comments_list
  ++ "

**REQUIRED OUTPUT FORMAT:**
For each comment, create this EXACT structure:

---
### 🔍 Analysis of Comment: "
  ++ dquote
  ++ "[EXACT ORIGINAL COMMENT]"
  ++ dquote
  ++ "

**💚 Positive Rephrasing:**
[Start with genuine praise for what they got right. Be extra encouraging for harsh comments. Use collaborative language like "
  ++ dquote
  ++ "we can"
  ++ dquote
  ++ " instead of "
  ++ dquote
  ++ "you should"
  ++ dquote
  ++ "]

**🧠 The 'Why' (Software Engineering Principle):**
[Explain the deeper principle: performance, readability, maintainability, etc. Include specific business impacts like "
  ++ dquote
  ++ "with 1000+ users, this optimization saves 500ms per request"
  ++ dquote
  ++ "]

**✨ Suggested Improvement:**
```python
# Clear comments explaining the changes
[Show the improved code with explanatory comments]
```

**📚 Learning Resources:**
- [Specific PEP-8 section, Python docs, or concept link]
- [Additional resource if relevant]

**🎯 Pro Tip:** [One advanced insight that shows senior-level understanding]

---

**TONE REQUIREMENTS:**
- Match encouragement level to original comment harshness
- Use "
  ++ dquote
  ++ "we"
  ++ dquote
  ++ " instead of "
  ++ dquote
  ++ "you"
  ++ dquote
  ++ " when possible  
- Always start with what they did well
- Sound like a patient mentor, not a critic
- Include specific technical reasoning
- End with actionable next steps

**TECHNICAL ACCURACY:**
- All code examples must be syntactically correct Python
- Focus on Python best practices (PEP-8, performance, readability)
- Provide working solutions, not pseudo-code

Generate the complete analysis for ALL "
  ++ str_int (len comments)
  ++ " comments now:".

Definition _call_gemini (prompt : string) : string :=
  match generate_content w prompt with
  | Value text => text
  | RequestException e | OtherException e => "Gemini API Error: " ++ e
  end.

Definition _call_ollama (prompt : string) : string :=
  match post w prompt with
  | Value response =>
      if (status_code response =? 200)%Z then
        match json_response response with
        | Value text => text
        | RequestException e | OtherException e =>
            "Ollama Connection Error: " ++ e
        end
      else "Ollama API Error: " ++ str_int (status_code response)
  | RequestException e | OtherException e => "Ollama Connection Error: " ++ e
  end.

Definition call_ai_engine (self : reviewer) (prompt : string) : string :=
  if AIEngine_eqb (engine self) GEMINI then _call_gemini prompt
  else if AIEngine_eqb (engine self) OLLAMA then _call_ollama prompt
  else "Error: No AI engine configured".

(** The f-string of [process_review]. *)
Definition report_of (code_snippet ai_response summary : string) : string :=
  "# 🌟 Ultimate Empathetic Code Review Report

*Transforming criticism into growth opportunities through AI-powered mentorship*

## 📝 Original Code Under Review
```python
"
  ++ code_snippet
  ++ "
```

## 🔄 Transformed Feedback Analysis

"
  ++ ai_response
  ++ "

"
  ++ summary
  ++ "

---
**🛠 Generated by Ultimate Empathetic Code Reviewer v3.0**  
*Dual AI Engine Support: Gemini + Ollama | Built for "
  ++ dquote
  ++ "Freedom from Mundane"
  ++ dquote
  ++ " Hackathon*  
*Making code reviews a force for growth, not friction* 🚀
".

Definition process_review (self : reviewer) (data : input_data)
  : outcome string :=
  match code_snippet data with
  | None => Raises (KeyError "code_snippet")
  | Some code_snippet =>
      match review_comments data with
      | None => Raises (KeyError "review_comments")
      | Some review_comments =>
          let master_prompt := create_master_prompt code_snippet review_comments in
          let ai_response := call_ai_engine self master_prompt in
          let summary :=
            create_summary_analysis (engine self) code_snippet review_comments in
          Returns (report_of code_snippet ai_response summary)
      end
  end.

End Methods.

(** The option loop of [main] from an index on: [--engine NAME] and
    [--api-key KEY] take the next argument, when there is one, and every
    other argument is passed over. *)
Fixpoint parse_options (args : list string) (engine : AIEngine)
  (api_key : option string) : run (AIEngine * option string) :=
  match args with
  | [] => Done (engine, api_key)
  | arg :: rest =>
      if String.eqb arg "--engine" then
        match rest with
        | value :: rest' =>
            let engine_str := lower value in
            if String.eqb engine_str "gemini" then parse_options rest' GEMINI api_key
            else if String.eqb engine_str "ollama" then parse_options rest' OLLAMA api_key
            else if String.eqb engine_str "auto" then parse_options rest' AUTO api_key
            else SysExit 1
        | [] => parse_options rest engine api_key
        end
      else if String.eqb arg "--api-key" then
        match rest with
        | value :: rest' => parse_options rest' engine (Some value)
        | [] => parse_options rest engine api_key
        end
      else parse_options rest engine api_key
  end.

(** [x in sys.argv]. *)
Definition mem (x : string) (argv : list string) : bool :=
  existsb (String.eqb x) argv.

(** The head of [main]: the usage exit, then the input file and the
    options. *)
Definition command_line (argv : list string)
  : run (string * AIEngine * option string) :=
  if ((List.length argv <? 2)%nat || mem "--help" argv || mem "-h" argv)%bool
  then SysExit 0
  else
    match argv with
    | _ :: input_file :: options =>
        match parse_options options AUTO None with
        | Done (engine, api_key) => Done (input_file, engine, api_key)
        | SysExit status => SysExit status
        end
    | _ => SysExit 0
    end.

(** [main] from the arguments and the loaded input to the report it
    writes; the handler of the [try] block prints an exception and exits
    with status 1, and an exit of the constructor leaves through it. *)
Definition main (w : world) (argv : list string) (data : input_data)
  : run string :=
  match command_line argv with
  | SysExit status => SysExit status
  | Done (_, engine, api_key) =>
      match validate ["code_snippet"; "review_comments"] data with
      | Raises _ => SysExit 1
      | Returns _ =>
          match __init__ w engine api_key with
          | SysExit status => SysExit status
          | Done reviewer =>
              match process_review w reviewer data with
              | Returns result => Done result
              | Raises _ => SysExit 1
              end
          end
      end
  end.

End UltimateReviewer.

(** ** The web route: the engine of a request *)

Module WebRoute.

Import Ultimate.

(** The fields of the JSON body that select the reviewer. *)
Record selection : Type := {
  engine : option string;
  api_key : option string
}.

(** The engine chosen from [data.get('engine', 'auto')]. *)
Definition ai_engine (request : selection) : AIEngine :=
  let engine := match engine request with Some text => text | None => "auto" end in
  if String.eqb engine "gemini" then GEMINI
  else if String.eqb engine "ollama" then OLLAMA
  else AUTO.

(** [api_key if api_key else None], from [data.get('api_key', '')]. *)
Definition key_argument (request : selection) : option string :=
  let api_key := match api_key request with Some text => text | None => EmptyString end in
  if truthy (Some api_key) then Some api_key else None.


End WebRoute.


(** ** Vocabulary of the regular expressions *)

(** The character before the position reached after reading [w] from a
    position whose previous character is [prev]. *)
Fixpoint prev_char (prev : option ascii) (w : string) : option ascii :=
  match w with
  | EmptyString => prev
  | String a w' => prev_char (Some a) w'
  end.

(** Every character of [w] is in the class. *)
Fixpoint all_in (c : char_class) (w : string) : bool :=
  match w with
  | EmptyString => true
  | String a w' => in_class c a && all_in c w'
  end.

(** The words of a regular expression: [denotes r prev w rest] says that
    [r] matches exactly the word [w] when [prev] is the character before
    it and [rest] the text after it. *)
Fixpoint denotes (r : regex) (prev : option ascii) (w rest : string) : Prop :=
  match r with
  | Lit text => w = text
  | One c => exists a, w = String a EmptyString /\ in_class c a = true
  | AtLeast min c => all_in c w = true /\ min <= String.length w
  | Cat r1 r2 =>
      exists w1 w2,
        w = w1 ++ w2
        /\ denotes r1 prev w1 (w2 ++ rest)
        /\ denotes r2 (prev_char prev w1) w2 rest
  | Alt r1 r2 => denotes r1 prev w rest \/ denotes r2 prev w rest
  | WordBoundary =>
      w = EmptyString /\ xorb (word_before prev) (word_after rest) = true
  | NotAhead r' =>
      w = EmptyString
      /\ ~ (exists w' rest', rest = w' ++ rest' /\ denotes r' prev w' rest')
  end.










(** The order of the encouragement levels: standard < high < extra_high. *)
Definition level_rank (level : encouragement) : nat :=
  match level with
  | standard => 0
  | high => 1
  | extra_high => 2
  end.

(** The comment is classified HARSH or CRITICAL. *)
Definition is_harsh (comment : string) : bool :=
  match analyze_comment_severity comment with
  | HARSH | CRITICAL => true
  | GENTLE | MODERATE => false
  end.

(** A name that [--engine] accepts, whatever the case of its letters. *)
Definition known_engine (value : string) : bool :=
  (String.eqb (lower value) "gemini" || String.eqb (lower value) "ollama"
   || String.eqb (lower value) "auto")%bool.


(** * Properties *)

(** ** Text *)

Lemma append_assoc (a b c : string) : (a ++ b) ++ c = a ++ b ++ c.
Proof.
  induction a as [|x a IH]; simpl; [reflexivity | now rewrite IH].
Qed.

Lemma append_empty_r (a : string) : a ++ EmptyString = a.
Proof.
  induction a as [|x a IH]; simpl; [reflexivity | now rewrite IH].
Qed.

Lemma lower_append (a b : string) : lower (a ++ b) = lower a ++ lower b.
Proof.
  induction a as [|x a IH]; simpl; [reflexivity | now rewrite IH].
Qed.

(** A split of the lowered text comes from a split of the text. *)
Lemma lower_split (s a' b' : string) :
  lower s = a' ++ b' ->
  exists a b, s = a ++ b /\ lower a = a' /\ lower b = b'.
Proof.
  revert s; induction a' as [|x a' IH]; intros s H.
  - exists EmptyString, s. auto.
  - destruct s as [|y s]; simpl in H; [discriminate|].
    injection H as Hx Hs.
    destruct (IH _ Hs) as (a & b & -> & Ha & Hb).
    exists (String y a), b. simpl. now rewrite Hx, Ha, Hb.
Qed.

Lemma startswith_iff (p s : string) :
  startswith p s = true <-> exists after, s = p ++ after.
Proof.
  revert s; induction p as [|a p IH]; intros s; simpl.
  - split; [intros _; now exists s | reflexivity].
  - destruct s as [|b s].
    + split; [discriminate | intros [after H]; discriminate].
    + rewrite andb_true_iff, Ascii.eqb_eq, IH. split.
      * intros [-> [after ->]]. now exists after.
      * intros [after H]. injection H as -> ->. split; [reflexivity | now exists after].
Qed.

Lemma contains_iff (needle hay : string) :
  contains needle hay = true <-> occurs_in needle hay.
Proof.
  unfold occurs_in. induction hay as [|c hay IH]; simpl.
  - rewrite orb_false_r, startswith_iff. split.
    + intros [after H]. now exists EmptyString, after.
    + intros (before & after & H).
      destruct before; [now exists after | discriminate].
  - rewrite orb_true_iff, startswith_iff, IH. split.
    + intros [[after H] | (before & after & H)].
      * now exists EmptyString, after.
      * exists (String c before), after. simpl. now rewrite H.
    + intros (before & after & H). destruct before as [|x before].
      * left. now exists after.
      * right. injection H as _ H. now exists before, after.
Qed.

Lemma contains_lower_iff (keyword comment : string) :
  contains keyword (lower comment) = true <-> occurs_ignoring_case keyword comment.
Proof.
  rewrite contains_iff. unfold occurs_in, occurs_ignoring_case. split.
  - intros (before' & after' & H).
    destruct (lower_split _ _ _ H) as (before & rest & -> & _ & Hrest).
    destruct (lower_split _ _ _ Hrest) as (word & after & -> & Hword & _).
    now exists before, word, after.
  - intros (before & word & after & -> & <-).
    exists (lower before), (lower after). now rewrite !lower_append.
Qed.

(** ** Severity classifier *)

Lemma has_keyword_iff (s : CommentSeverity) (comment : string) :
  has_keyword s comment <-> has_keywordb s comment = true.
Proof.
  unfold has_keyword, has_keywordb. rewrite existsb_exists.
  split; intros (keyword & Hin & H); exists keyword; split; auto;
    now apply contains_lower_iff.
Qed.

(** The classifier as a cascade over the four sets, harshest first. *)
Lemma analyze_comment_severity_cascade (comment : string) :
  analyze_comment_severity comment =
    if has_keywordb CRITICAL comment then CRITICAL
    else if has_keywordb HARSH comment then HARSH
    else if has_keywordb MODERATE comment then MODERATE
    else GENTLE.
Proof.
  unfold analyze_comment_severity, has_keywordb, keywords_of.
  cbn [severity_keywords first_severity find fst snd CommentSeverity_eqb].
  repeat match goal with |- context [if ?b then _ else _] => destruct b end;
    reflexivity.
Qed.

(** C1. The keyword sets are tried in the order CRITICAL, HARSH, MODERATE,
    GENTLE and the first one with a match decides: for a comment holding a
    keyword of a set [h] and a keyword of a milder set [m], the severity
    returned is never milder than [h]; it is [h] itself when no set harsher
    than [h] has a keyword in the comment, and so it is CRITICAL whenever
    [h] is CRITICAL. *)
Theorem harsher_keyword_wins (comment : string) (h m : CommentSeverity) :
  rank m < rank h ->
  has_keyword h comment ->
  has_keyword m comment ->
  rank h <= rank (analyze_comment_severity comment)
  /\ ((forall s, rank h < rank s -> ~ has_keyword s comment) ->
      analyze_comment_severity comment = h)
  /\ (h = CRITICAL -> analyze_comment_severity comment = CRITICAL).
Proof.
  intros Hlt Hh Hm.
  assert (Hno : forall s, ~ has_keyword s comment -> has_keywordb s comment = false).
  { intros s Hs. destruct (has_keywordb s comment) eqn:E; [|reflexivity].
    exfalso. apply Hs. now apply has_keyword_iff. }
  apply has_keyword_iff in Hh.
  rewrite analyze_comment_severity_cascade.
  split; [|split].
  - destruct h; simpl in *; try lia;
      repeat match goal with
             | |- context [if ?b then _ else _] => destruct b eqn:?
             end; simpl; try lia; congruence.
  - intros Hharsher.
    destruct h; simpl in *; try lia.
    + rewrite (Hno CRITICAL), (Hno HARSH), Hh by (apply Hharsher; simpl; lia).
      reflexivity.
    + rewrite (Hno CRITICAL), Hh by (apply Hharsher; simpl; lia). reflexivity.
    + now rewrite Hh.
  - intros ->. now rewrite Hh.
Qed.

Lemma harsher_keyword_wins_witness :
  analyze_comment_severity "You should fix this Terrible code" = CRITICAL.
Proof.
  apply (harsher_keyword_wins "You should fix this Terrible code" CRITICAL MODERATE).
  - simpl; lia.
  - apply has_keyword_iff; vm_compute; reflexivity.
  - apply has_keyword_iff; vm_compute; reflexivity.
  - reflexivity.
Defined.

(** C7. The classifier is a total function, and a comment in which no
    keyword of the four sets occurs, whatever the case of its letters, is
    GENTLE; the empty comment is one of them. *)
Theorem no_keyword_is_gentle (comment : string) :
  (forall s keyword, In keyword (keywords_of s) ->
     ~ occurs_ignoring_case keyword comment) ->
  analyze_comment_severity comment = GENTLE
  /\ analyze_comment_severity EmptyString = GENTLE.
Proof.
  intros Hnone. split; [|reflexivity].
  assert (Hno : forall s, has_keywordb s comment = false).
  { intros s. destruct (has_keywordb s comment) eqn:E; [|reflexivity].
    apply has_keyword_iff in E. destruct E as (keyword & Hin & Hocc).
    exfalso. exact (Hnone s keyword Hin Hocc). }
  rewrite analyze_comment_severity_cascade. now rewrite !Hno.
Qed.

Lemma no_keyword_is_gentle_witness :
  analyze_comment_severity "LGTM, ship it" = GENTLE.
Proof.
  apply (no_keyword_is_gentle "LGTM, ship it").
  intros s keyword Hin Hocc.
  assert (H : has_keywordb s "LGTM, ship it" = true).
  { apply has_keyword_iff. now exists keyword. }
  destruct s; vm_compute in H; discriminate.
Defined.

(** ** Pattern detector *)







(** ** Per-comment lines of the composer *)

Lemma severity_analysis_map (comments : list string) :
  severity_analysis comments
  = map (fun '(i, comment) => severity_line i comment) (enumerate comments).
Proof.
  unfold severity_analysis.
  generalize (enumerate comments) as items.
  assert (H : forall (items : list (nat * string)) (acc : list string),
    fold_left
      (fun analysis '(i, comment) =>
         let severity := analyze_comment_severity comment in
         let tone := get_contextual_tone (Member severity) in
         let line := "Comment " ++ str_nat (i + 1) ++ ": " ++ value severity
                     ++ " severity - " ++ tone in
         (analysis ++ [line])%list) items acc
    = (acc ++ map (fun '(i, comment) => severity_line i comment) items)%list).
  { induction items as [|[i comment] items IH]; intros acc; simpl.
    - now rewrite app_nil_r.
    - rewrite IH, <- app_assoc. reflexivity. }
  intros items. apply H.
Qed.

Lemma enumerate_from_length {A : Type} (items : list A) :
  forall start, List.length (enumerate_from start items) = List.length items.
Proof.
  induction items as [|x items IH]; intros start; simpl; [reflexivity|].
  now rewrite IH.
Qed.

Lemma enumerate_from_nth {A : Type} (items : list A) :
  forall start i x,
    nth_error items i = Some x ->
    nth_error (enumerate_from start items) i = Some (start + i, x).
Proof.
  induction items as [|y items IH]; intros start [|i] x H; simpl in *;
    try discriminate.
  - injection H as ->. now rewrite Nat.add_0_r.
  - rewrite (IH (S start) i x H). do 2 f_equal. lia.
Qed.

Lemma severity_analysis_nth (comments : list string) (i : nat) (comment : string) :
  nth_error comments i = Some comment ->
  nth_error (severity_analysis comments) i = Some (severity_line i comment).
Proof.
  intros H. rewrite severity_analysis_map. unfold enumerate.
  erewrite map_nth_error by (apply enumerate_from_nth; eassumption).
  reflexivity.
Qed.

Lemma numbered_comments_nth (comments : list string) (i : nat) (comment : string) :
  nth_error comments i = Some comment ->
  nth_error (numbered_comments comments) i = Some (numbered_line i comment).
Proof.
  intros H. unfold numbered_comments, enumerate.
  erewrite map_nth_error by (apply enumerate_from_nth; eassumption).
  reflexivity.
Qed.

Lemma severity_analysis_length (comments : list string) :
  List.length (severity_analysis comments) = List.length comments.
Proof.
  rewrite severity_analysis_map, length_map. apply enumerate_from_length.
Qed.

Lemma numbered_comments_length (comments : list string) :
  List.length (numbered_comments comments) = List.length comments.
Proof.
  unfold numbered_comments. rewrite length_map. apply enumerate_from_length.
Qed.

(** C9. Classifying the comments of a review gives one entry for each
    comment, in the order of the input: the list of severity lines and the
    list of numbered comments have the length of the input, and their entry
    at index [i] is the one made from the comment at index [i], numbered
    [i + 1], with that comment's own severity and tone. *)
Theorem classification_keeps_length_and_order (comments : list string) :
  List.length (severity_analysis comments) = List.length comments
  /\ List.length (numbered_comments comments) = List.length comments
  /\ forall i comment,
       nth_error comments i = Some comment ->
       nth_error (severity_analysis comments) i
         = Some ("Comment " ++ str_nat (i + 1) ++ ": "
                 ++ value (analyze_comment_severity comment) ++ " severity - "
                 ++ get_contextual_tone (Member (analyze_comment_severity comment)))
       /\ nth_error (numbered_comments comments) i
         = Some (str_nat (i + 1) ++ ". " ++ dquote ++ comment ++ dquote).
Proof.
  split; [apply severity_analysis_length|].
  split; [apply numbered_comments_length|].
  intros i comment H. split.
  - now apply severity_analysis_nth.
  - now apply numbered_comments_nth.
Qed.

Lemma classification_keeps_length_and_order_witness :
  nth_error (severity_analysis ["This is terrible code."; "maybe rename u"]) 1
    = Some "Comment 2: gentle severity - Nice suggestion! Let's explore this further"
  /\ nth_error (numbered_comments ["This is terrible code."; "maybe rename u"]) 1
    = Some ("2. " ++ dquote ++ "maybe rename u" ++ dquote).
Proof.
  exact (proj2 (proj2 (classification_keeps_length_and_order
                         ["This is terrible code."; "maybe rename u"]))
           1 "maybe rename u" eq_refl).
Defined.

(** ** Encouragement policy *)

Lemma total_severity_count (comments : list string) :
  total_severity comments = Z.of_nat (harsh_count comments).
Proof.
  unfold total_severity, harsh_count.
  assert (H : forall acc,
    fold_left
      (fun total comment =>
         if is_harsh_or_critical (analyze_comment_severity comment)
         then (total + 1)%Z else total) comments acc
    = (acc + Z.of_nat
         (List.length
            (filter (fun comment =>
                       match analyze_comment_severity comment with
                       | HARSH | CRITICAL => true
                       | GENTLE | MODERATE => false
                       end) comments)))%Z).
  { induction comments as [|c comments IH]; intros acc; simpl.
    - lia.
    - rewrite IH. destruct (analyze_comment_severity c); simpl; lia. }
  rewrite H. lia.
Qed.

(** C2. With [harsh] the number of comments classified HARSH or CRITICAL
    and [total] the number of comments, the level is extra_high exactly
    when harsh > 0.6 * total, high exactly when 0 < harsh <= 0.6 * total,
    and standard exactly when harsh = 0. *)
Theorem encouragement_level_thresholds (comments : list string) :
  let harsh := inject_Z (Z.of_nat (harsh_count comments)) in
  let total := inject_Z (Z.of_nat (List.length comments)) in
  (encouragement_level comments = extra_high <-> (0.6 * total < harsh)%Q)
  /\ (encouragement_level comments = high
      <-> (0 < harsh)%Q /\ (harsh <= 0.6 * total)%Q)
  /\ (encouragement_level comments = standard <-> harsh_count comments = 0).
Proof.
  cbv zeta. unfold encouragement_level, len, Qlt_bool.
  rewrite total_severity_count.
  set (h := harsh_count comments). set (n := List.length comments).
  assert (Hle : forall x y : Q, Qle_bool x y = true <-> (x <= y)%Q)
    by apply Qle_bool_iff.
  assert (Hcmp : (0.6 * inject_Z (Z.of_nat n) < inject_Z (Z.of_nat h))%Q
                 <-> (3 * Z.of_nat n < 5 * Z.of_nat h)%Z).
  { unfold Qlt, Qmult, inject_Z. cbn [Qnum Qden]. lia. }
  assert (Hcmp' : (inject_Z (Z.of_nat h) <= 0.6 * inject_Z (Z.of_nat n))%Q
                  <-> (5 * Z.of_nat h <= 3 * Z.of_nat n)%Z).
  { unfold Qle, Qmult, inject_Z. cbn [Qnum Qden]. lia. }
  assert (Hpos : (0 < inject_Z (Z.of_nat h))%Q <-> (0 < Z.of_nat h)%Z).
  { unfold Qlt, inject_Z. cbn [Qnum Qden]. lia. }
  rewrite Hcmp, Hcmp', Hpos.
  destruct (Qle_bool (inject_Z (Z.of_nat h)) (inject_Z (Z.of_nat n) * 0.6)) eqn:E;
    cbn [negb].
  - apply Hle in E. unfold Qle, Qmult, inject_Z in E. cbn [Qnum Qden] in E.
    destruct (0 <? Z.of_nat h)%Z eqn:E0;
      [apply Z.ltb_lt in E0 | apply Z.ltb_ge in E0];
      repeat split; intros; try discriminate; try lia.
  - assert (E' : ~ (inject_Z (Z.of_nat h) <= inject_Z (Z.of_nat n) * 0.6)%Q).
    { intros H. apply Hle in H. congruence. }
    unfold Qle, Qmult, inject_Z in E'. cbn [Qnum Qden] in E'.
    repeat split; intros; try discriminate; try lia.
Qed.

(** The three reviews of five comments. *)
Example encouragement_level_of_five :
  encouragement_level ["bad"; "awful"; "wrong"; "messy"; "fine"] = extra_high
  /\ encouragement_level ["bad"; "fine"; "wrong"; "ok"; "fine"] = high
  /\ encouragement_level ["fine"; "ok"; "nice"; "good"; "fine"] = standard.
Proof. repeat split. Qed.

(** ** Blocks standing in order in a text *)

Lemma in_order_at (before block rest s : string) (blocks : list string) :
  s = before ++ block ++ rest ->
  in_order blocks rest ->
  in_order (block :: blocks) s.
Proof.
  intros -> H. now constructor.
Qed.

Lemma in_order_prepend (a s : string) (blocks : list string) :
  in_order blocks s -> in_order blocks (a ++ s).
Proof.
  intros H. destruct H as [s | before block blocks rest H].
  - constructor.
  - rewrite <- append_assoc. now constructor.
Qed.

Lemma in_order_skip (c : ascii) (s : string) (blocks : list string) :
  in_order blocks s -> in_order blocks (String c s).
Proof.
  intros H. exact (in_order_prepend (String c EmptyString) s blocks H).
Qed.

(** The items of a joined list stand in order in it, and so does whatever
    stands in order after it. *)
Lemma in_order_join (sep rest : string) (items blocks : list string) :
  in_order blocks rest ->
  in_order (items ++ blocks)%list (join sep items ++ rest).
Proof.
  intros H. induction items as [|x [|y items] IH].
  - exact H.
  - apply (in_order_at EmptyString x rest); [reflexivity | exact H].
  - change (join sep (x :: y :: items)) with (x ++ sep ++ join sep (y :: items)).
    apply (in_order_at EmptyString x (sep ++ join sep (y :: items) ++ rest)).
    + now rewrite !append_assoc.
    + apply in_order_prepend. exact IH.
Qed.

Lemma in_order_occurs (block s : string) (blocks : list string) :
  in_order blocks s -> In block blocks -> occurs_in block s.
Proof.
  induction 1 as [s | before b blocks rest H IH]; intros Hin; [contradiction|].
  destruct Hin as [-> | Hin].
  - now exists before, rest.
  - destruct (IH Hin) as (a & c & ->).
    exists (before ++ b ++ a), c. now rewrite !append_assoc.
Qed.

(** ** Composer: the instructions *)

(** The part of the instructions template from the code fence to the list
    of comments. *)
Lemma scaffold_in_order (code detected tail : string) (lines items : list string) :
  in_order
    (fenced code :: ("**DETECTED PATTERNS:** " ++ detected ++ newline)
       :: (lines ++ items)%list)
    ("```python" ++ newline ++ code ++ newline ++ "```" ++ newline ++ newline
     ++ "**DETECTED PATTERNS:** " ++ detected ++ newline ++ newline
     ++ "**COMMENT SEVERITY ANALYSIS:**" ++ newline ++ join newline lines
     ++ newline ++ newline ++ "**ORIGINAL COMMENTS TO TRANSFORM:**" ++ newline
     ++ join newline items ++ tail).
Proof.
  eapply (in_order_at EmptyString (fenced code)).
  { unfold fenced. rewrite !append_assoc. reflexivity. }
  eapply (in_order_at (newline ++ newline)).
  { rewrite !append_assoc. reflexivity. }
  do 3 apply in_order_prepend. apply in_order_join.
  do 4 apply in_order_prepend.
  generalize (in_order_join newline tail items [] (in_order_nil tail)).
  now rewrite app_nil_r.
Qed.

Lemma active_patterns_iff (code : string) (name : string) :
  In name (active_patterns code)
  <-> lookup name (detect_code_patterns code) = Some true.
Proof.
  unfold active_patterns, detect_code_patterns.
  cbn [code_patterns map].
  repeat match goal with |- context [re_search ?r code] =>
    let b := fresh "b" in generalize (re_search r code) as b; intros b
  end.
  cbn [lookup].
  repeat match goal with
         | |- context [String.eqb ?k name] =>
             destruct (String.eqb_spec k name) as [<- | ?]
         end;
    repeat match goal with b : bool |- _ => destruct b end;
    cbn [filter map fst snd In]; split; intros H;
    try discriminate; try reflexivity; try tauto;
    repeat (destruct H as [H | H]; try discriminate; try congruence;
            try contradiction).
Qed.

(** C4. The instructions built from a snippet and its comments hold, in
    this order: the snippet verbatim inside its code fence; the line of
    detected patterns, which lists the names of the flags that are set, or
    the marker [Clean basic structure] when none is; one severity and tone
    line for each comment; and each comment verbatim between quotes,
    numbered from 1 in the order of the input. *)
Theorem create_master_prompt_scaffold (code_snippet : string)
  (comments : list string) :
  let prompt := create_master_prompt code_snippet comments in
  let names := active_patterns code_snippet in
  let detected :=
    match names with
    | [] => "Clean basic structure"
    | _ :: _ => join ", " names
    end in
  in_order
    (fenced code_snippet :: ("**DETECTED PATTERNS:** " ++ detected ++ newline)
       :: (severity_analysis comments ++ numbered_comments comments)%list)
    prompt
  /\ (forall name,
        In name names
        <-> lookup name (detect_code_patterns code_snippet) = Some true)
  /\ List.length (severity_analysis comments) = List.length comments
  /\ List.length (numbered_comments comments) = List.length comments
  /\ (forall i comment,
        nth_error comments i = Some comment ->
        nth_error (severity_analysis comments) i = Some (severity_line i comment)
        /\ nth_error (numbered_comments comments) i
           = Some (str_nat (i + 1) ++ ". " ++ dquote ++ comment ++ dquote)).
Proof.
  cbv zeta. split; [|split; [|split; [|split]]].
  - unfold create_master_prompt. cbv zeta. cbn [append].
    repeat match goal with
           | |- in_order _ (String _ _) =>
               first [ apply scaffold_in_order | apply in_order_skip ]
           end.
  - intros name. apply active_patterns_iff.
  - apply severity_analysis_length.
  - apply numbered_comments_length.
  - intros i comment H. split.
    + now apply severity_analysis_nth.
    + now apply numbered_comments_nth.
Qed.

Lemma create_master_prompt_scaffold_witness :
  nth_error (severity_analysis ["This is terrible code."; "maybe rename u"]) 0
    = Some (severity_line 0 "This is terrible code.")
  /\ nth_error (numbered_comments ["This is terrible code."; "maybe rename u"]) 0
    = Some ("1. " ++ dquote ++ "This is terrible code." ++ dquote).
Proof.
  exact (proj2 (proj2 (proj2 (proj2
           (create_master_prompt_scaffold "if u == True: return 1"
              ["This is terrible code."; "maybe rename u"]))))
           0 "This is terrible code." eq_refl).
Defined.

(** ** Composer: the report *)

(** A text standing inside the last block stands where that block does. *)
Lemma in_order_inside_last (blocks : list string) (block inner : string) :
  occurs_in inner block ->
  forall s, in_order (blocks ++ [block])%list s ->
            in_order (blocks ++ [inner])%list s.
Proof.
  intros (x & y & ->). induction blocks as [|b blocks IH]; intros s H.
  - inversion H as [|before blk rest' rest _ E1]; subst.
    apply (in_order_at (before ++ x) inner (y ++ rest)).
    + now rewrite !append_assoc.
    + constructor.
  - inversion H as [|before blk rest' rest Hrest E1]; subst.
    constructor. now apply IH.
Qed.

(** The part of the report template from the code fence on. *)
Lemma report_in_order (code ai_response summary tail : string) :
  in_order [fenced code; ai_response; summary]
    ("```python" ++ newline ++ code ++ newline ++ "```" ++ newline ++ newline
     ++ ai_response ++ newline ++ newline ++ summary ++ tail).
Proof.
  eapply (in_order_at EmptyString (fenced code)).
  { unfold fenced. rewrite !append_assoc. reflexivity. }
  eapply (in_order_at (newline ++ newline) ai_response).
  { rewrite !append_assoc. reflexivity. }
  eapply (in_order_at (newline ++ newline) summary).
  { rewrite !append_assoc. reflexivity. }
  constructor.
Qed.

Lemma summary_holds_paragraph (code : string) (comments : list string) :
  occurs_in (Advanced.summary_prompts (encouragement_level comments))
            (Advanced.create_summary_analysis code comments).
Proof.
  unfold Advanced.create_summary_analysis. cbv zeta.
  eexists _, _. reflexivity.
Qed.

(** C5. Whatever the completion call gives, a text or a failure, the
    report is produced; it holds the snippet verbatim in its code fence,
    then the text of the collaborator unaltered, then the closing paragraph
    that belongs to the encouragement level of the comments.  When the call
    fails the text of the collaborator is the placeholder that names the
    failure; when it succeeds it is the text received. *)
Theorem report_embeds_collaborator_text (post : string -> attempt response)
  (code : string) (comments : list string) :
  let data := {| code_snippet := Some code; review_comments := Some comments |} in
  let prompt := create_master_prompt code comments in
  let ai_response := call_ollama post prompt in
  exists report,
    main post data = Returns report
    /\ in_order [fenced code; ai_response;
                 Advanced.summary_prompts (encouragement_level comments)] report
    /\ (forall r text,
          post prompt = Value r -> status_code r = 200%Z ->
          json_response r = Value text -> ai_response = text)
    /\ (forall r,
          post prompt = Value r -> status_code r <> 200%Z ->
          ai_response = "API Error: " ++ str_int (status_code r))
    /\ (forall e,
          post prompt = RequestException e ->
          ai_response = "Connection error: " ++ e)
    /\ (forall e,
          post prompt = OtherException e ->
          ai_response = "Unexpected error: " ++ e).
Proof.
  cbv zeta. eexists. split; [reflexivity|]. split.
  - apply (in_order_inside_last
             [fenced code; call_ollama post (create_master_prompt code comments)]
             (Advanced.create_summary_analysis code comments)).
    + apply summary_holds_paragraph.
    + unfold report_of. cbn [append app].
      repeat match goal with
             | |- in_order _ (String _ _) =>
                 first [ apply report_in_order | apply in_order_skip ]
             end.
  - unfold call_ollama. repeat split.
    + intros r text -> H200 ->. now rewrite H200.
    + intros r -> Hnot. apply Z.eqb_neq in Hnot. now rewrite Hnot.
    + now intros e ->.
    + now intros e ->.
Qed.

Lemma report_embeds_collaborator_text_witness :
  exists report,
    main (fun _ => RequestException "refused")
         {| code_snippet := Some "x = 1"; review_comments := Some ["bad name"] |}
    = Returns report
    /\ in_order [fenced "x = 1"; "Connection error: refused";
                 Advanced.summary_prompts extra_high] report.
Proof.
  destruct (report_embeds_collaborator_text
              (fun _ => RequestException "refused") "x = 1" ["bad name"])
    as (report & Hmain & Hord & _ & _ & Hreq & _).
  exists report. split; [exact Hmain|].
  rewrite (Hreq "refused" eq_refl) in Hord. exact Hord.
Defined.

(** ** Closing summary *)

Lemma harsh_count_of_severities (comments : list string) :
  harsh_count comments
  = List.length
      (filter (fun severity =>
                 match severity with
                 | HARSH | CRITICAL => true
                 | GENTLE | MODERATE => false
                 end) (map analyze_comment_severity comments)).
Proof.
  unfold harsh_count. induction comments as [|c comments IH]; [reflexivity|].
  simpl. destruct (analyze_comment_severity c); simpl; now rewrite IH.
Qed.

Lemma encouragement_level_of_severities (comments1 comments2 : list string) :
  map analyze_comment_severity comments1 = map analyze_comment_severity comments2 ->
  encouragement_level comments1 = encouragement_level comments2.
Proof.
  intros H. unfold encouragement_level, len.
  rewrite !total_severity_count, !harsh_count_of_severities, H.
  rewrite <- (length_map analyze_comment_severity comments1).
  rewrite <- (length_map analyze_comment_severity comments2).
  now rewrite H.
Qed.

(** C10. The closing summary does not depend on the snippet: for one list
    of comments any two snippets give the same text, in the advanced and in
    the ultimate reviewer, and lists of comments with the same severities
    give the same text as well. *)
Theorem summary_independent_of_snippet (s1 s2 : string)
  (comments : list string) (engine : Ultimate.AIEngine) :
  Advanced.create_summary_analysis s1 comments
  = Advanced.create_summary_analysis s2 comments
  /\ Ultimate.create_summary_analysis engine s1 comments
     = Ultimate.create_summary_analysis engine s2 comments
  /\ forall comments',
       map analyze_comment_severity comments'
       = map analyze_comment_severity comments ->
       Advanced.create_summary_analysis s1 comments'
       = Advanced.create_summary_analysis s2 comments
       /\ Ultimate.create_summary_analysis engine s1 comments'
          = Ultimate.create_summary_analysis engine s2 comments.
Proof.
  split; [reflexivity|]. split; [reflexivity|].
  intros comments' H.
  unfold Advanced.create_summary_analysis, Ultimate.create_summary_analysis.
  cbv zeta. rewrite (encouragement_level_of_severities _ _ H).
  split; reflexivity.
Qed.

Lemma summary_independent_of_snippet_witness :
  Advanced.create_summary_analysis "x = 10" ["this is bad"]
  = Advanced.create_summary_analysis "for a in b: pass" ["Wrong again"].
Proof.
  apply (summary_independent_of_snippet "x = 10" "for a in b: pass"
           ["Wrong again"] Ultimate.OLLAMA).
  reflexivity.
Defined.

(** ** Tone selector *)




(** ** Empty reviews *)

(** C3, as the program has it.  A request that lacks one of the two
    required keys fails at validation, and the web route turns down a
    request whose comments are absent or empty with status 400; the
    encouragement policy is total, and on the empty sequence it gives the
    standard level and the summary with the standard paragraph. *)
Theorem empty_comments_handling :
  (forall post data,
     code_snippet data = None \/ review_comments data = None ->
     fails (main post data))
  /\ (forall process_review data,
        review_comments data = None \/ review_comments data = Some [] ->
        Web.review_code process_review data
        = Web.Error 400 "Code snippet and comments required")
  /\ encouragement_level [] = standard
  /\ (forall code,
        occurs_in (Advanced.summary_prompts standard)
                  (Advanced.create_summary_analysis code [])).
Proof.
  split; [|split; [|split]].
  - intros post [[code|] [comments|]] [H | H]; simpl in H; try discriminate;
      unfold main; cbn; eexists; reflexivity.
  - intros process [code comments] [H | H]; simpl in H; subst;
      unfold Web.review_code; cbn [code_snippet review_comments];
      now rewrite orb_true_r.
  - reflexivity.
  - intros code. apply (summary_holds_paragraph code []).
Qed.

Lemma empty_comments_handling_witness :
  fails (main (fun _ => OtherException "unreachable")
              {| code_snippet := Some "x = 1"; review_comments := None |})
  /\ Web.review_code (fun _ => Raises (KeyError "unused"))
       {| code_snippet := Some "x = 1"; review_comments := Some [] |}
     = Web.Error 400 "Code snippet and comments required".
Proof.
  split.
  - apply empty_comments_handling. right. reflexivity.
  - apply empty_comments_handling. right. reflexivity.
Defined.

(** C3, the counterexample: on the empty sequence the policy returns a
    level, and the command-line path validates the request and writes a
    report for it. *)
Lemma level_of_empty_review_is_standard :
  encouragement_level [] = standard
  /\ validate ["code_snippet"; "review_comments"]
       {| code_snippet := Some "x = 1"; review_comments := Some [] |}
     = Returns tt
  /\ ~ fails (main (fun _ => RequestException "refused")
                {| code_snippet := Some "x = 1"; review_comments := Some [] |}).
Proof.
  split; [reflexivity|]. split; [reflexivity|].
  intros [e H]. discriminate H.
Qed.

(** ** The scenario of a two-comment review *)

Example two_comment_review :
  let code := "def f(u):" ++ newline ++ "  if u == True:" ++ newline
              ++ "    return 1" in
  let comments := ["This is terrible code."; "maybe rename u"] in
  map analyze_comment_severity comments = [CRITICAL; GENTLE]
  /\ active_patterns code = ["boolean_redundancy"; "single_letter_vars"]
  /\ encouragement_level comments = high
  /\ numbered_comments comments
     = ["1. " ++ dquote ++ "This is terrible code." ++ dquote;
        "2. " ++ dquote ++ "maybe rename u" ++ dquote].
Proof. repeat split. Qed.

(** * More properties of the pipeline and of its callers *)

(** ** The matcher and the words of a regular expression *)

Lemma prev_char_append (prev : option ascii) (w1 w2 : string) :
  prev_char prev (w1 ++ w2) = prev_char (prev_char prev w1) w2.
Proof.
  revert prev; induction w1 as [|a w1 IH]; intros prev; simpl; auto.
Qed.

Lemma all_in_append (c : char_class) (w1 w2 : string) :
  all_in c (w1 ++ w2) = all_in c w1 && all_in c w2.
Proof.
  induction w1 as [|a w1 IH]; simpl; [reflexivity|].
  now rewrite IH, andb_assoc.
Qed.

Lemma length_append (w1 w2 : string) :
  String.length (w1 ++ w2) = String.length w1 + String.length w2.
Proof.
  induction w1 as [|a w1 IH]; simpl; [reflexivity | now rewrite IH].
Qed.

Lemma eat_iff (text : string) (prev p' : option ascii) (s s' : string) :
  eat text prev s = Some (p', s') <-> s = text ++ s' /\ p' = prev_char prev text.
Proof.
  revert prev s; induction text as [|a text IH]; intros prev s; simpl.
  - split; [intros [= -> ->]; auto | intros [-> ->]; reflexivity].
  - destruct s as [|b s].
    + split; [discriminate | intros [H _]; discriminate].
    + destruct (Ascii.eqb_spec a b) as [<- | Hne].
      * rewrite IH. split; intros [H1 H2]; split; congruence.
      * split; [discriminate | intros [H _]; simpl in H; congruence].
Qed.

Lemma at_least_iff (c : char_class) (s : string)
  (k : option ascii -> string -> bool) :
  forall min prev,
    at_least c min prev s k = true
    <-> exists w rest,
          s = w ++ rest /\ all_in c w = true /\ min <= String.length w
          /\ k (prev_char prev w) rest = true.
Proof.
  induction s as [|a s IH]; intros min prev.
  - cbn [at_least]. rewrite andb_true_iff, Nat.eqb_eq. split.
    + intros [-> Hk]. exists EmptyString, EmptyString. auto.
    + intros (w & rest & Hs & _ & Hmin & Hk).
      destruct w; [|discriminate]. simpl in Hs. subst rest.
      simpl in *. split; [lia | assumption].
  - cbn [at_least]. split.
    + intros H.
      assert (Hstop : ((min =? 0)%nat && k prev (String a s))%bool = true ->
                exists w rest, String a s = w ++ rest /\ all_in c w = true
                  /\ min <= String.length w /\ k (prev_char prev w) rest = true).
      { rewrite andb_true_iff, Nat.eqb_eq. intros [-> Hk].
        exists EmptyString, (String a s). auto. }
      destruct (in_class c a) eqn:Ha; [|auto].
      apply orb_true_iff in H as [H | H]; [|auto].
      apply IH in H as (w & rest & -> & Hall & Hmin & Hk).
      exists (String a w), rest. simpl. rewrite Ha, Hall.
      repeat split; [lia | assumption].
    + intros (w & rest & Hs & Hall & Hmin & Hk). destruct w as [|b w].
      * simpl in *. subst rest.
        assert (Hstop : ((min =? 0)%nat && k prev (String a s))%bool = true).
        { rewrite andb_true_iff, Nat.eqb_eq. split; [lia | assumption]. }
        destruct (in_class c a); [now rewrite Hstop, orb_true_r | assumption].
      * simpl in Hs. injection Hs as <- ->. simpl in Hall, Hmin, Hk.
        apply andb_true_iff in Hall as [Ha Hall]. rewrite Ha.
        apply orb_true_iff. left. apply IH. exists w, rest.
        repeat split; auto. lia.
Qed.

(** The matcher accepts exactly the words of the expression. *)
Lemma matches_iff (r : regex) :
  forall prev s k,
    matches r prev s k = true
    <-> exists w rest,
          s = w ++ rest /\ denotes r prev w rest
          /\ k (prev_char prev w) rest = true.
Proof.
  induction r as [text | c | min c | r1 IH1 r2 IH2 | r1 IH1 r2 IH2 | | r IH];
    intros prev s k; cbn [matches denotes].
  - split.
    + destruct (eat text prev s) as [[p' s']|] eqn:E; [|discriminate].
      apply eat_iff in E as [-> ->]. intros Hk. now exists text, s'.
    + intros (w & rest & -> & -> & Hk).
      assert (E : eat text prev (text ++ rest) = Some (prev_char prev text, rest))
        by now apply eat_iff.
      now rewrite E.
  - destruct s as [|a s].
    + split; [discriminate|].
      intros (w & rest & Hs & (b & -> & _) & _). discriminate.
    + rewrite andb_true_iff. split.
      * intros [Ha Hk]. exists (String a EmptyString), s. eauto.
      * intros (w & rest & Hs & (b & -> & Hb) & Hk).
        simpl in Hs, Hk. injection Hs as -> ->. auto.
  - rewrite at_least_iff. split.
    + intros (w & rest & -> & Hall & Hmin & Hk). exists w, rest. auto.
    + intros (w & rest & -> & [Hall Hmin] & Hk). exists w, rest. auto.
  - rewrite IH1. split.
    + intros (w1 & rest1 & -> & H1 & H2).
      apply IH2 in H2 as (w2 & rest & -> & H2 & Hk).
      exists (w1 ++ w2), rest. rewrite append_assoc, prev_char_append.
      repeat split; auto. now exists w1, w2.
    + intros (w & rest & -> & (w1 & w2 & -> & H1 & H2) & Hk).
      exists w1, (w2 ++ rest). rewrite append_assoc. repeat split; auto.
      apply IH2. exists w2, rest. rewrite <- prev_char_append. auto.
  - rewrite orb_true_iff, IH1, IH2. split.
    + intros [(w & rest & Hs & H & Hk) | (w & rest & Hs & H & Hk)];
        exists w, rest; auto.
    + intros (w & rest & Hs & [H | H] & Hk); [left | right];
        exists w, rest; auto.
  - rewrite andb_true_iff. split.
    + intros [Hx Hk]. exists EmptyString, s. auto.
    + intros (w & rest & -> & [-> Hx] & Hk). auto.
  - rewrite andb_true_iff, negb_true_iff. split.
    + intros [Hno Hk]. exists EmptyString, s. repeat split; auto.
      intros (w' & rest' & Hs & H).
      assert (Hyes : matches r prev s (fun _ _ => true) = true)
        by (apply IH; now exists w', rest').
      congruence.
    + intros (w & rest & -> & [-> Hno] & Hk). simpl in *. split; [|assumption].
      destruct (matches r prev rest (fun _ _ => true)) eqn:E; [|reflexivity].
      exfalso. apply Hno. apply IH in E as (w' & rest' & Hs & H & _).
      now exists w', rest'.
Qed.

Lemma match_here_iff (r : regex) (prev : option ascii) (s : string) :
  match_here r prev s = true
  <-> exists w rest, s = w ++ rest /\ denotes r prev w rest.
Proof.
  unfold match_here. rewrite matches_iff. split.
  - intros (w & rest & Hs & H & _). now exists w, rest.
  - intros (w & rest & Hs & H). now exists w, rest.
Qed.

(** The scan finds a match exactly when a word of the expression stands
    somewhere in the text. *)
Lemma search_from_iff (r : regex) (s : string) :
  forall prev,
    search_from r prev s = true
    <-> exists before w rest,
          s = before ++ w ++ rest /\ denotes r (prev_char prev before) w rest.
Proof.
  induction s as [|a s IH]; intros prev; cbn [search_from];
    rewrite orb_true_iff, match_here_iff.
  - split.
    + intros [(w & rest & Hs & H) | H]; [|discriminate].
      now exists EmptyString, w, rest.
    + intros (before & w & rest & Hs & H). left.
      destruct before; [|discriminate]. now exists w, rest.
  - rewrite IH. split.
    + intros [(w & rest & Hs & H) | (before & w & rest & Hs & H)].
      * now exists EmptyString, w, rest.
      * exists (String a before), w, rest. simpl. now rewrite Hs.
    + intros (before & w & rest & Hs & H). destruct before as [|b before].
      * left. now exists w, rest.
      * right. simpl in Hs. injection Hs as <- ->. now exists before, w, rest.
Qed.

Lemma re_search_iff (r : regex) (code : string) :
  re_search r code = true
  <-> exists before w rest,
        code = before ++ w ++ rest /\ denotes r (prev_char None before) w rest.
Proof.
  apply search_from_iff.
Qed.
(** ** The five patterns *)




Lemma detect_code_patterns_items (code : string) :
  detect_code_patterns code
  = [ ("list_comprehension", re_search list_comprehension code);
      ("boolean_redundancy", re_search boolean_redundancy code);
      ("single_letter_vars", re_search single_letter_vars code);
      ("magic_numbers", re_search magic_numbers code);
      ("nested_loops", re_search nested_loops code) ].
Proof. reflexivity. Qed.

Ltac break_up :=
  repeat match goal with
         | H : exists _, _ |- _ => destruct H
         | H : _ /\ _ |- _ => destruct H
         end.

(** The flag boolean_redundancy is set exactly for the snippets in which
    the text [== True] or the text [== False] stands. *)
Theorem boolean_redundancy_exactly (snippet : string) :
  lookup "boolean_redundancy" (detect_code_patterns snippet) = Some true
  <-> occurs_in "== True" snippet \/ occurs_in "== False" snippet.
Proof.
  rewrite detect_code_patterns_items. cbn [lookup String.eqb Ascii.eqb Bool.eqb].
  split.
  - intros [= H]. apply re_search_iff in H as (before & w & rest & -> & H).
    destruct H as [-> | ->]; [left | right]; now exists before, rest.
  - intros H. f_equal. apply re_search_iff.
    destruct H as [(before & rest & ->) | (before & rest & ->)].
    + exists before, "== True", rest. split; [reflexivity | now left].
    + exists before, "== False", rest. split; [reflexivity | now right].
Qed.

Lemma boolean_redundancy_exactly_witness :
  lookup "boolean_redundancy" (detect_code_patterns "while done == False: step()")
  = Some true.
Proof.
  apply (boolean_redundancy_exactly "while done == False: step()").
  right. exists "while done ", ": step()". reflexivity.
Defined.













(** ** More on the severity classifier *)

Lemma has_keywordb_false_iff (s : CommentSeverity) (comment : string) :
  has_keywordb s comment = false <-> ~ has_keyword s comment.
Proof.
  rewrite has_keyword_iff. destruct (has_keywordb s comment); split;
    congruence.
Qed.

(** Each severity is returned for exactly the comments whose harshest
    keyword set is its own: CRITICAL when a CRITICAL keyword occurs, HARSH
    when a HARSH one occurs and no CRITICAL one, MODERATE when a MODERATE
    one occurs and no harsher one, GENTLE in every other case, whether a
    GENTLE keyword occurs or not. *)
Theorem severity_exactly (comment : string) :
  (analyze_comment_severity comment = CRITICAL
   <-> has_keyword CRITICAL comment)
  /\ (analyze_comment_severity comment = HARSH
      <-> has_keyword HARSH comment /\ ~ has_keyword CRITICAL comment)
  /\ (analyze_comment_severity comment = MODERATE
      <-> has_keyword MODERATE comment /\ ~ has_keyword HARSH comment
          /\ ~ has_keyword CRITICAL comment)
  /\ (analyze_comment_severity comment = GENTLE
      <-> ~ has_keyword MODERATE comment /\ ~ has_keyword HARSH comment
          /\ ~ has_keyword CRITICAL comment).
Proof.
  rewrite analyze_comment_severity_cascade.
  rewrite <- !has_keywordb_false_iff, !has_keyword_iff.
  destruct (has_keywordb CRITICAL comment), (has_keywordb HARSH comment),
    (has_keywordb MODERATE comment);
    repeat split; intros; break_up; try discriminate; auto.
Qed.

Lemma severity_exactly_witness :
  analyze_comment_severity "This is wrong, maybe" = HARSH.
Proof.
  apply (severity_exactly "This is wrong, maybe"). split.
  - apply has_keyword_iff. vm_compute. reflexivity.
  - intros H. apply has_keyword_iff in H. vm_compute in H. discriminate.
Defined.

Lemma occurs_ignoring_case_in_context (keyword before comment after : string) :
  occurs_ignoring_case keyword comment ->
  occurs_ignoring_case keyword (before ++ comment ++ after).
Proof.
  intros (x & w & y & -> & Hw).
  exists (before ++ x), w, (y ++ after). split; [|assumption].
  now rewrite !append_assoc.
Qed.

Lemma has_keywordb_in_context (s : CommentSeverity)
  (before comment after : string) :
  has_keywordb s comment = true ->
  has_keywordb s (before ++ comment ++ after) = true.
Proof.
  rewrite <- !has_keyword_iff. intros (keyword & Hin & H).
  exists keyword. split; [assumption|].
  now apply occurs_ignoring_case_in_context.
Qed.

(** Text put before or after a comment never makes it milder: the
    severity of the longer comment is at least that of the comment. *)
Theorem severity_grows_with_context (before comment after : string) :
  rank (analyze_comment_severity comment)
  <= rank (analyze_comment_severity (before ++ comment ++ after)).
Proof.
  rewrite !analyze_comment_severity_cascade.
  pose proof (has_keywordb_in_context CRITICAL before comment after) as Hc.
  pose proof (has_keywordb_in_context HARSH before comment after) as Hh.
  pose proof (has_keywordb_in_context MODERATE before comment after) as Hm.
  destruct (has_keywordb CRITICAL comment);
    [rewrite Hc by reflexivity; simpl; lia|].
  destruct (has_keywordb CRITICAL (before ++ comment ++ after));
    [destruct (has_keywordb HARSH comment), (has_keywordb MODERATE comment);
     simpl; lia|].
  destruct (has_keywordb HARSH comment);
    [rewrite Hh by reflexivity; simpl; lia|].
  destruct (has_keywordb HARSH (before ++ comment ++ after));
    [destruct (has_keywordb MODERATE comment); simpl; lia|].
  destruct (has_keywordb MODERATE comment);
    [rewrite Hm by reflexivity; simpl; lia|].
  destruct (has_keywordb MODERATE (before ++ comment ++ after)); simpl; lia.
Qed.

(** ** More on the encouragement policy *)

Lemma harsh_count_cons (comment : string) (comments : list string) :
  harsh_count (comment :: comments)
  = (if is_harsh comment then 1 else 0) + harsh_count comments.
Proof.
  unfold harsh_count, is_harsh. cbn [filter].
  destruct (analyze_comment_severity comment); reflexivity.
Qed.

Lemma harsh_count_app (comments1 comments2 : list string) :
  harsh_count (comments1 ++ comments2)
  = harsh_count comments1 + harsh_count comments2.
Proof.
  induction comments1 as [|c comments1 IH]; [reflexivity|].
  cbn [app]. rewrite !harsh_count_cons, IH. lia.
Qed.

Lemma harsh_count_le_length (comments : list string) :
  harsh_count comments <= List.length comments.
Proof.
  induction comments as [|c comments IH]; [apply Nat.le_refl|].
  rewrite harsh_count_cons. simpl. destruct (is_harsh c); lia.
Qed.

(** The level as a comparison of natural numbers: harsh > 0.6 * total
    says 5 * harsh > 3 * total. *)
Lemma encouragement_level_arith (comments : list string) :
  encouragement_level comments
  = if (3 * List.length comments <? 5 * harsh_count comments)%nat then extra_high
    else if (0 <? harsh_count comments)%nat then high
    else standard.
Proof.
  unfold encouragement_level, len, Qlt_bool. rewrite total_severity_count.
  set (h := harsh_count comments). set (n := List.length comments).
  destruct (Qle_bool (inject_Z (Z.of_nat h)) (inject_Z (Z.of_nat n) * 0.6))
    eqn:E; cbn [negb].
  - apply Qle_bool_iff in E. unfold Qle, Qmult, inject_Z in E.
    cbn [Qnum Qden] in E.
    destruct (Nat.ltb_spec (3 * n) (5 * h)) as [H | H]; [lia|].
    destruct (Nat.ltb_spec 0 h) as [H0 | H0],
             (Z.ltb_spec 0 (Z.of_nat h)) as [H1 | H1];
      try reflexivity; lia.
  - assert (E' : ~ (inject_Z (Z.of_nat h) <= inject_Z (Z.of_nat n) * 0.6)%Q).
    { intros H. apply Qle_bool_iff in H. congruence. }
    unfold Qle, Qmult, inject_Z in E'. cbn [Qnum Qden] in E'.
    destruct (Nat.ltb_spec (3 * n) (5 * h)) as [H | H]; [reflexivity | lia].
Qed.

Lemma harsh_count_permutation (comments1 comments2 : list string) :
  Permutation comments1 comments2 ->
  harsh_count comments1 = harsh_count comments2.
Proof.
  induction 1 as [| c l1 l2 _ IH | c d l | l1 l2 l3 _ IH1 _ IH2].
  - reflexivity.
  - now rewrite !harsh_count_cons, IH.
  - rewrite !harsh_count_cons. lia.
  - congruence.
Qed.

(** The order of the comments does not matter to the closing summary:
    two reviews that hold the same comments in any order get the same
    encouragement level and the same summary text. *)
Theorem summary_ignores_comment_order (comments1 comments2 : list string)
  (code1 code2 : string) :
  Permutation comments1 comments2 ->
  encouragement_level comments1 = encouragement_level comments2
  /\ Advanced.create_summary_analysis code1 comments1
     = Advanced.create_summary_analysis code2 comments2.
Proof.
  intros H.
  assert (E : encouragement_level comments1 = encouragement_level comments2).
  { rewrite !encouragement_level_arith.
    now rewrite (harsh_count_permutation _ _ H), (Permutation_length H). }
  split; [exact E|].
  unfold Advanced.create_summary_analysis. cbv zeta. now rewrite E.
Qed.

Lemma summary_ignores_comment_order_witness :
  encouragement_level ["this is bad"; "maybe rename"; "fine"]
  = encouragement_level ["fine"; "this is bad"; "maybe rename"].
Proof.
  apply (summary_ignores_comment_order
           ["this is bad"; "maybe rename"; "fine"]
           ["fine"; "this is bad"; "maybe rename"] "x" "y").
  apply Permutation_sym.
  apply (Permutation_cons_app ["this is bad"; "maybe rename"] [] "fine").
  apply Permutation_refl.
Defined.

(** One more harsh or critical comment never lowers the level of a
    review, and one more gentle or moderate comment never raises it,
    wherever the comment is put. *)
Theorem level_moves_with_harshness (comments1 comments2 : list string)
  (comment : string) :
  (is_harsh comment = true ->
   level_rank (encouragement_level (comments1 ++ comments2))
   <= level_rank (encouragement_level (comments1 ++ comment :: comments2)))
  /\ (is_harsh comment = false ->
      level_rank (encouragement_level (comments1 ++ comment :: comments2))
      <= level_rank (encouragement_level (comments1 ++ comments2))).
Proof.
  rewrite !encouragement_level_arith, !harsh_count_app, harsh_count_cons,
    !length_app.
  cbn [List.length].
  set (h := harsh_count comments1 + harsh_count comments2).
  set (n := List.length comments1 + List.length comments2).
  split; intros ->.
  - replace (harsh_count comments1 + (1 + harsh_count comments2)) with (h + 1)
      by (unfold h; lia).
    replace (List.length comments1 + S (List.length comments2)) with (n + 1)
      by (unfold n; lia).
    destruct (Nat.ltb_spec (3 * n) (5 * h)), (Nat.ltb_spec 0 h),
      (Nat.ltb_spec (3 * (n + 1)) (5 * (h + 1))), (Nat.ltb_spec 0 (h + 1));
      simpl; lia.
  - replace (harsh_count comments1 + (0 + harsh_count comments2)) with h
      by (unfold h; lia).
    replace (List.length comments1 + S (List.length comments2)) with (n + 1)
      by (unfold n; lia).
    destruct (Nat.ltb_spec (3 * n) (5 * h)), (Nat.ltb_spec 0 h),
      (Nat.ltb_spec (3 * (n + 1)) (5 * h)); simpl; lia.
Qed.

Lemma level_moves_with_harshness_witness :
  level_rank (encouragement_level ["fine"; "nice work"])
  <= level_rank (encouragement_level ["fine"; "this is awful"; "nice work"]).
Proof.
  apply (level_moves_with_harshness ["fine"] ["nice work"] "this is awful").
  reflexivity.
Defined.

(** A review all of whose comments are harsh or critical gets
    extra_high; the level high needs a mix, at least one harsh or critical
    comment and at least one that is neither, so it never comes from a
    review of a single comment. *)
Theorem level_of_uniform_and_mixed_reviews (comments : list string) :
  (comments <> [] -> forallb is_harsh comments = true ->
   encouragement_level comments = extra_high)
  /\ (encouragement_level comments = high ->
      1 <= harsh_count comments
      /\ harsh_count comments < List.length comments
      /\ 2 <= List.length comments).
Proof.
  rewrite encouragement_level_arith. split.
  - intros Hne Hall.
    assert (E : harsh_count comments = List.length comments).
    { clear Hne. induction comments as [|c comments IH]; [reflexivity|].
      cbn [forallb] in Hall. apply andb_true_iff in Hall as [Hc Hall].
      rewrite harsh_count_cons, Hc, (IH Hall). reflexivity. }
    rewrite E. destruct comments as [|c comments]; [contradiction|].
    cbn [List.length].
    destruct (Nat.ltb_spec (3 * S (List.length comments))
                           (5 * S (List.length comments))); [reflexivity | lia].
  - destruct (Nat.ltb_spec (3 * List.length comments) (5 * harsh_count comments));
      [discriminate|].
    destruct (Nat.ltb_spec 0 (harsh_count comments)); [|discriminate].
    intros _. lia.
Qed.

Lemma level_of_uniform_and_mixed_reviews_witness :
  encouragement_level ["this is bad"; "awful naming"] = extra_high.
Proof.
  apply (level_of_uniform_and_mixed_reviews ["this is bad"; "awful naming"]).
  - discriminate.
  - reflexivity.
Defined.

(** ** More on the composer and on the command-line path *)

Lemma in_order_exact (block : string) : in_order [block] block.
Proof.
  apply (in_order_at EmptyString block EmptyString).
  - now rewrite append_empty_r.
  - constructor.
Qed.

Lemma in_order_tail (block : string) (blocks : list string) (s : string) :
  in_order (block :: blocks) s -> in_order blocks s.
Proof.
  intros H. inversion H as [|before b bs rest Hrest]; subst.
  now do 2 apply in_order_prepend.
Qed.

(** The scaffold of the instructions, with any heading for the detected
    patterns and with more blocks standing after the list of comments. *)
Lemma scaffold_in_order_then (heading code detected tail : string)
  (lines items more : list string) :
  in_order more tail ->
  in_order
    (fenced code :: (heading ++ detected ++ newline)
       :: (lines ++ items ++ more)%list)
    ("```python" ++ newline ++ code ++ newline ++ "```" ++ newline ++ newline
     ++ heading ++ detected ++ newline ++ newline
     ++ "**COMMENT SEVERITY ANALYSIS:**" ++ newline ++ join newline lines
     ++ newline ++ newline ++ "**ORIGINAL COMMENTS TO TRANSFORM:**" ++ newline
     ++ join newline items ++ tail).
Proof.
  intros Hmore.
  eapply (in_order_at EmptyString (fenced code)).
  { unfold fenced. rewrite !append_assoc. reflexivity. }
  eapply (in_order_at (newline ++ newline)).
  { rewrite !append_assoc. reflexivity. }
  do 3 apply in_order_prepend. apply in_order_join.
  do 4 apply in_order_prepend. apply in_order_join. exact Hmore.
Qed.

Lemma quoted_heading_in_order (comment rest : string) :
  in_order ["Analysis of Comment: " ++ dquote ++ comment ++ dquote]
    ("Analysis of Comment: " ++ dquote ++ comment ++ dquote ++ rest).
Proof.
  apply (in_order_at EmptyString _ rest); [|constructor].
  now rewrite !append_assoc.
Qed.

Lemma in_order_split (l l1 l2 rest : string) (blocks : list string) :
  l = l1 ++ l2 ->
  in_order blocks (l2 ++ rest) -> in_order blocks (l ++ rest).
Proof.
  intros -> H. rewrite append_assoc. now apply in_order_prepend.
Qed.

(** Walks through a text given as a chain of appended parts, up to the
    place in one of its literal parts where [marker] stands, and runs
    [here] there. *)
Ltac seek marker here :=
  lazymatch goal with
  | |- in_order _ (String ?c ?l' ++ ?rest) =>
      let l := constr:(String c l') in
      let found := eval vm_compute in (index 0 marker l) in
      lazymatch found with
      | Some ?k =>
          let l1 := eval vm_compute in (substring 0 k l) in
          let l2 := eval vm_compute in (substring k (String.length l - k) l) in
          apply (in_order_split l l1 l2 rest); [reflexivity | here]
      | None => apply in_order_prepend; seek marker here
      end
  | |- in_order _ (_ ++ _) => apply in_order_prepend; seek marker here
  end.

(** After the list of comments the instructions show the heading of one
    analysis: it quotes the first comment of the review, and the word
    PLACEHOLDER when the review has no comment; with no comment the two
    lists of the instructions are empty. *)
Theorem create_master_prompt_heading (code_snippet : string)
  (comments : list string) :
  let first_comment :=
    match comments with
    | [] => "PLACEHOLDER"
    | comment :: _ => comment
    end in
  let heading := "Analysis of Comment: " ++ dquote ++ first_comment ++ dquote in
  in_order
    ((severity_analysis comments ++ numbered_comments comments) ++ [heading])%list
    (create_master_prompt code_snippet comments)
  /\ (comments = [] ->
      severity_analysis comments = [] /\ numbered_comments comments = []).
Proof.
  cbv zeta. split.
  - assert (H : in_order
        (fenced code_snippet
           :: ("**DETECTED PATTERNS:** "
               ++ match active_patterns code_snippet with
                  | [] => "Clean basic structure"
                  | _ :: _ => join ", " (active_patterns code_snippet)
                  end ++ newline)
           :: (severity_analysis comments ++ numbered_comments comments
               ++ [("Analysis of Comment: " ++ dquote
                    ++ match comments with
                       | [] => "PLACEHOLDER"
                       | comment :: _ => comment
                       end ++ dquote)%string])%list)
        (create_master_prompt code_snippet comments)).
    { unfold create_master_prompt. cbv zeta.
      seek "```python"
           ltac:(apply (scaffold_in_order_then "**DETECTED PATTERNS:** ")).
      seek "Analysis of Comment: " ltac:(apply quoted_heading_in_order). }
    rewrite <- app_assoc. exact (in_order_tail _ _ _ (in_order_tail _ _ _ H)).
  - intros ->. split; reflexivity.
Qed.

Lemma create_master_prompt_heading_witness :
  severity_analysis [] = [] /\ numbered_comments [] = [].
Proof.
  apply (create_master_prompt_heading "x = 1" []). reflexivity.
Defined.





(** ** The ultimate reviewer *)

(** A reviewer that the constructor returns has the engine GEMINI or
    OLLAMA, never AUTO, and the engine asked for unless AUTO was asked;
    with GEMINI the library is installed and the key, taken from the
    argument or else from the environment, is not empty; with OLLAMA the
    version check succeeded both times it was made.  Its
    [call_ai_engine] is then the call of its own engine. *)
Theorem constructed_reviewer_has_engine (w : UltimateReviewer.world)
  (requested : Ultimate.AIEngine) (key : option string)
  (self : UltimateReviewer.reviewer) :
  UltimateReviewer.__init__ w requested key = Done self ->
  (UltimateReviewer.engine self = Ultimate.GEMINI
   \/ UltimateReviewer.engine self = Ultimate.OLLAMA)
  /\ (requested <> Ultimate.AUTO -> UltimateReviewer.engine self = requested)
  /\ UltimateReviewer.api_key self
     = py_or key (UltimateReviewer.getenv_GEMINI_API_KEY w)
  /\ (UltimateReviewer.engine self = Ultimate.GEMINI ->
      UltimateReviewer.GEMINI_AVAILABLE w = true
      /\ truthy (UltimateReviewer.api_key self) = true)
  /\ (UltimateReviewer.engine self = Ultimate.OLLAMA ->
      UltimateReviewer._check_ollama w 0 = true
      /\ UltimateReviewer._check_ollama w 1 = true)
  /\ (forall prompt,
        UltimateReviewer.call_ai_engine w self prompt
        = match UltimateReviewer.engine self with
          | Ultimate.GEMINI => UltimateReviewer._call_gemini w prompt
          | _ => UltimateReviewer._call_ollama w prompt
          end).
Proof.
  unfold UltimateReviewer.__init__, UltimateReviewer._determine_engine,
    UltimateReviewer._init_gemini, UltimateReviewer._init_ollama,
    UltimateReviewer.call_ai_engine.
  destruct requested;
    destruct (UltimateReviewer.GEMINI_AVAILABLE w) eqn:Ea;
    destruct (truthy (py_or key (UltimateReviewer.getenv_GEMINI_API_KEY w))) eqn:Ek;
    destruct (UltimateReviewer._check_ollama w 0) eqn:E0;
    destruct (UltimateReviewer._check_ollama w 1) eqn:E1;
    cbn [negb andb UltimateReviewer.api_key UltimateReviewer.engine];
    rewrite ?Ek, ?E0, ?E1; cbn [negb];
    intros H; try discriminate H; injection H as <-;
    cbn [UltimateReviewer.api_key UltimateReviewer.engine Ultimate.AIEngine_eqb];
    repeat split; auto; intros; try discriminate; try congruence.
Qed.

Lemma constructed_reviewer_has_engine_witness :
  UltimateReviewer.engine
    {| UltimateReviewer.engine := Ultimate.GEMINI;
       UltimateReviewer.api_key := Some "k" |} = Ultimate.GEMINI
  \/ UltimateReviewer.engine
       {| UltimateReviewer.engine := Ultimate.GEMINI;
          UltimateReviewer.api_key := Some "k" |} = Ultimate.OLLAMA.
Proof.
  apply (constructed_reviewer_has_engine
           {| UltimateReviewer.GEMINI_AVAILABLE := true;
              UltimateReviewer.getenv_GEMINI_API_KEY := None;
              UltimateReviewer.get_version := fun _ => OtherException "down";
              UltimateReviewer.generate_content := fun _ => Value "ok";
              UltimateReviewer.post := fun _ => OtherException "down" |}
           Ultimate.AUTO (Some "k")).
  reflexivity.
Defined.

(** Every exit of the constructor has the status 1. *)
Lemma init_exit_status (w : UltimateReviewer.world)
  (requested : Ultimate.AIEngine) (key : option string) (status : Z) :
  UltimateReviewer.__init__ w requested key = SysExit status -> status = 1%Z.
Proof.
  unfold UltimateReviewer.__init__, UltimateReviewer._determine_engine,
    UltimateReviewer._init_gemini, UltimateReviewer._init_ollama.
  destruct requested;
    destruct (UltimateReviewer.GEMINI_AVAILABLE w);
    destruct (truthy (py_or key (UltimateReviewer.getenv_GEMINI_API_KEY w))) eqn:Ek;
    destruct (UltimateReviewer._check_ollama w 0) eqn:E0;
    destruct (UltimateReviewer._check_ollama w 1) eqn:E1;
    cbn [negb andb UltimateReviewer.api_key]; rewrite ?Ek, ?E0, ?E1;
    cbn [negb]; intros H; try discriminate H; congruence.
Qed.

(** In the automatic mode Gemini is taken whenever its library is
    installed and a key is at hand, without a look at Ollama; otherwise
    Ollama is taken when its version check succeeds twice, and the
    constructor exits otherwise.  Every exit of the constructor has the
    status 1. *)
Theorem automatic_engine_selection (w : UltimateReviewer.world)
  (key : option string) :
  let key' := py_or key (UltimateReviewer.getenv_GEMINI_API_KEY w) in
  (UltimateReviewer.GEMINI_AVAILABLE w = true -> truthy key' = true ->
   UltimateReviewer.__init__ w Ultimate.AUTO key
   = Done {| UltimateReviewer.engine := Ultimate.GEMINI;
             UltimateReviewer.api_key := key' |})
  /\ (UltimateReviewer.GEMINI_AVAILABLE w = false \/ truthy key' = false ->
      UltimateReviewer.__init__ w Ultimate.AUTO key
      = if (UltimateReviewer._check_ollama w 0
            && UltimateReviewer._check_ollama w 1)%bool
        then Done {| UltimateReviewer.engine := Ultimate.OLLAMA;
                     UltimateReviewer.api_key := key' |}
        else SysExit 1)
  /\ (forall requested status,
        UltimateReviewer.__init__ w requested key = SysExit status ->
        status = 1%Z).
Proof.
  cbv zeta.
  unfold UltimateReviewer.__init__, UltimateReviewer._determine_engine,
    UltimateReviewer._init_gemini, UltimateReviewer._init_ollama.
  split; [|split].
  - intros -> Hk. cbn [andb]. rewrite Hk.
    cbn [UltimateReviewer.api_key]. now rewrite Hk.
  - intros H.
    assert (E : (UltimateReviewer.GEMINI_AVAILABLE w
                 && truthy (py_or key (UltimateReviewer.getenv_GEMINI_API_KEY w)))%bool
                = false).
    { destruct H as [-> | ->]; [reflexivity | apply andb_false_r]. }
    rewrite E.
    destruct (UltimateReviewer._check_ollama w 0),
      (UltimateReviewer._check_ollama w 1); reflexivity.
  - intros requested status H.
    destruct requested;
      destruct (UltimateReviewer.GEMINI_AVAILABLE w);
      destruct (truthy (py_or key (UltimateReviewer.getenv_GEMINI_API_KEY w))) eqn:Ek;
      destruct (UltimateReviewer._check_ollama w 0) eqn:E0;
      destruct (UltimateReviewer._check_ollama w 1) eqn:E1;
      cbn [negb andb UltimateReviewer.api_key] in H; rewrite ?Ek, ?E0, ?E1 in H;
      cbn [negb] in H; try discriminate H; congruence.
Qed.

Lemma automatic_engine_selection_witness :
  UltimateReviewer.__init__
    {| UltimateReviewer.GEMINI_AVAILABLE := true;
       UltimateReviewer.getenv_GEMINI_API_KEY := Some "from-env";
       UltimateReviewer.get_version := fun _ => Value 200%Z;
       UltimateReviewer.generate_content := fun _ => Value "ok";
       UltimateReviewer.post := fun _ => OtherException "down" |}
    Ultimate.AUTO None
  = Done {| UltimateReviewer.engine := Ultimate.GEMINI;
            UltimateReviewer.api_key := Some "from-env" |}.
Proof.
  apply (automatic_engine_selection
           {| UltimateReviewer.GEMINI_AVAILABLE := true;
              UltimateReviewer.getenv_GEMINI_API_KEY := Some "from-env";
              UltimateReviewer.get_version := fun _ => Value 200%Z;
              UltimateReviewer.generate_content := fun _ => Value "ok";
              UltimateReviewer.post := fun _ => OtherException "down" |}
           None); reflexivity.
Defined.

Lemma in_order_here (block rest : string) (blocks : list string) :
  in_order blocks rest -> in_order (block :: blocks) (block ++ rest).
Proof.
  intros H. now apply (in_order_at EmptyString block rest).
Qed.

Lemma in_order_before (s tail : string) (blocks : list string) :
  in_order blocks s -> in_order blocks (s ++ tail).
Proof.
  induction 1 as [s | before block blocks rest H IH]; [constructor|].
  rewrite !append_assoc. now constructor.
Qed.

Lemma in_order_app (blocks1 blocks2 : list string) (s1 s2 : string) :
  in_order blocks1 s1 -> in_order blocks2 s2 ->
  in_order (blocks1 ++ blocks2)%list (s1 ++ s2).
Proof.
  intros H1 H2. induction H1 as [s | before block blocks rest H IH].
  - now apply in_order_prepend.
  - rewrite !append_assoc. cbn [app]. now constructor.
Qed.

Lemma fence_in_order (code rest : string) (blocks : list string) :
  in_order blocks rest ->
  in_order (fenced code :: blocks)
    ("```python" ++ newline ++ code ++ newline ++ "```" ++ rest).
Proof.
  intros H. apply (in_order_at EmptyString (fenced code) rest); [|exact H].
  unfold fenced. now rewrite !append_assoc.
Qed.

Lemma ends_prepend (a s ending : string) :
  (exists before, s = before ++ ending) ->
  exists before, a ++ s = before ++ ending.
Proof.
  intros [before ->]. exists (a ++ before). now rewrite append_assoc.
Qed.

(** Walks through a chain of appended parts up to the literal part in
    which [ending] begins, and closes the goal there. *)
Ltac seek_ending ending :=
  lazymatch goal with
  | |- exists _, String ?c ?l' ++ ?rest = _ =>
      let l := constr:(String c l') in
      let found := eval vm_compute in (index 0 ending l) in
      lazymatch found with
      | Some ?k =>
          let l1 := eval vm_compute in (substring 0 k l) in
          exists l1; reflexivity
      | None => apply ends_prepend; seek_ending ending
      end
  | |- exists _, _ ++ _ = _ => apply ends_prepend; seek_ending ending
  end.

(** Walks through a chain of appended parts up to the part that is the
    first block itself. *)
Ltac seek_part :=
  lazymatch goal with
  | |- in_order (?b :: _) (?b ++ _) => apply in_order_here
  | |- in_order _ (String _ _) => apply in_order_skip; seek_part
  | |- in_order _ (_ ++ _) => apply in_order_prepend; seek_part
  end.

(** The instructions of the ultimate reviewer hold, in this order: the
    snippet in its code fence, the line of detected patterns, one severity
    line for each comment, each comment quoted and numbered, and at the end
    the request for all the comments, with their number. *)
Theorem ultimate_prompt_scaffold (code_snippet : string)
  (comments : list string) :
  let names := active_patterns code_snippet in
  let detected :=
    match names with
    | [] => "Clean basic structure"
    | _ :: _ => join ", " names
    end in
  let request := "Generate the complete analysis for ALL "
                 ++ str_int (Z.of_nat (List.length comments))
                 ++ " comments now:" in
  in_order
    (fenced code_snippet
       :: ("**DETECTED CODE PATTERNS:** " ++ detected ++ newline)
       :: (severity_analysis comments ++ numbered_comments comments
           ++ [request])%list)
    (UltimateReviewer.create_master_prompt code_snippet comments)
  /\ List.length (numbered_comments comments) = List.length comments
  /\ exists before,
       UltimateReviewer.create_master_prompt code_snippet comments
       = before ++ request.
Proof.
  cbv zeta. split; [|split].
  - unfold UltimateReviewer.create_master_prompt, len. cbv zeta.
    seek "```python"
         ltac:(apply (scaffold_in_order_then "**DETECTED CODE PATTERNS:** ")).
    seek "Generate the complete analysis for ALL " ltac:(apply in_order_exact).
  - apply numbered_comments_length.
  - unfold UltimateReviewer.create_master_prompt, len. cbv zeta.
    seek_ending "Generate the complete analysis for ALL ".
Qed.

(** The report of the ultimate reviewer, for any engine and whatever the
    completion service gives, holds the snippet in its code fence, then the
    text of the engine unaltered, then the closing paragraph of the level
    of the comments and the name of the engine; a failure of the service
    is shown as a placeholder that carries the message of the failure. *)
Theorem ultimate_report_embeds_engine_text (w : UltimateReviewer.world)
  (self : UltimateReviewer.reviewer) (code : string) (comments : list string) :
  let data := {| code_snippet := Some code; review_comments := Some comments |} in
  let prompt := UltimateReviewer.create_master_prompt code comments in
  let ai_response := UltimateReviewer.call_ai_engine w self prompt in
  let engine_info :=
    match UltimateReviewer.engine self with
    | Ultimate.GEMINI => "Google Gemini"
    | _ => "Local Llama 3.1"
    end in
  exists report,
    UltimateReviewer.process_review w self data = Returns report
    /\ in_order [fenced code; ai_response;
                 Ultimate.summary_prompts (encouragement_level comments);
                 "Powered by " ++ engine_info] report
    /\ (UltimateReviewer.engine self = Ultimate.GEMINI ->
        forall e,
          UltimateReviewer.generate_content w prompt = RequestException e
          \/ UltimateReviewer.generate_content w prompt = OtherException e ->
          ai_response = "Gemini API Error: " ++ e)
    /\ (UltimateReviewer.engine self = Ultimate.OLLAMA ->
        forall e,
          UltimateReviewer.post w prompt = RequestException e
          \/ UltimateReviewer.post w prompt = OtherException e ->
          ai_response = "Ollama Connection Error: " ++ e).
Proof.
  cbv zeta. eexists. split; [reflexivity|]. split; [|split].
  - assert (Hinfo : (if Ultimate.AIEngine_eqb (UltimateReviewer.engine self)
                          Ultimate.GEMINI
                     then "Google Gemini" else "Local Llama 3.1")
                    = match UltimateReviewer.engine self with
                      | Ultimate.GEMINI => "Google Gemini"
                      | _ => "Local Llama 3.1"
                      end)
      by (destruct (UltimateReviewer.engine self); reflexivity).
    assert (Hp : forall x rest blocks,
               in_order blocks rest ->
               in_order (("Powered by " ++ x) :: blocks)
                        ("Powered by " ++ x ++ rest)).
    { intros x rest blocks H. apply (in_order_at EmptyString _ rest); [|exact H].
      now rewrite !append_assoc. }
    unfold UltimateReviewer.report_of.
    seek "```python" ltac:(apply fence_in_order).
    seek_part.
    do 2 apply in_order_skip. apply in_order_before.
    unfold Ultimate.create_summary_analysis. cbv zeta. rewrite Hinfo.
    seek_part.
    seek "Powered by " ltac:(apply Hp). constructor.
  - intros Hg e [H | H]; unfold UltimateReviewer.call_ai_engine,
      UltimateReviewer._call_gemini; rewrite Hg, H; reflexivity.
  - intros Ho e [H | H]; unfold UltimateReviewer.call_ai_engine,
      UltimateReviewer._call_ollama; rewrite Ho, H; reflexivity.
Qed.

Lemma ultimate_report_embeds_engine_text_witness :
  UltimateReviewer.call_ai_engine
    {| UltimateReviewer.GEMINI_AVAILABLE := true;
       UltimateReviewer.getenv_GEMINI_API_KEY := None;
       UltimateReviewer.get_version := fun _ => Value 200%Z;
       UltimateReviewer.generate_content := fun _ => OtherException "quota";
       UltimateReviewer.post := fun _ => OtherException "down" |}
    {| UltimateReviewer.engine := Ultimate.GEMINI;
       UltimateReviewer.api_key := Some "k" |}
    (UltimateReviewer.create_master_prompt "x = 1" ["this is bad"])
  = "Gemini API Error: quota".
Proof.
  destruct (ultimate_report_embeds_engine_text
              {| UltimateReviewer.GEMINI_AVAILABLE := true;
                 UltimateReviewer.getenv_GEMINI_API_KEY := None;
                 UltimateReviewer.get_version := fun _ => Value 200%Z;
                 UltimateReviewer.generate_content := fun _ => OtherException "quota";
                 UltimateReviewer.post := fun _ => OtherException "down" |}
              {| UltimateReviewer.engine := Ultimate.GEMINI;
                 UltimateReviewer.api_key := Some "k" |}
              "x = 1" ["this is bad"]) as (report & _ & _ & Hg & _).
  apply Hg; [reflexivity | right; reflexivity].
Defined.

(** ** The command line of the ultimate reviewer *)

Lemma parse_options_induction (P : list string -> Prop) :
  P [] ->
  (forall a, P [] -> P [a]) ->
  (forall a b rest, P rest -> P (b :: rest) -> P (a :: b :: rest)) ->
  forall args, P args.
Proof.
  intros Hnil Hone Hstep.
  assert (H : forall args, P args /\ forall a, P (a :: args)).
  { induction args as [|b rest [IH1 IH2]].
    - split; [exact Hnil | intros a; now apply Hone].
    - split; [apply IH2 | intros a; apply Hstep; auto]. }
  intros args. apply H.
Qed.

(** The option loop leaves the program only with status 1, and only when
    some [--engine] is followed by a name that is none of gemini, ollama
    and auto; when no argument is [--engine] or [--api-key] it changes
    nothing, and the arguments that are no options are passed over. *)
Theorem parse_options_exits_on_unknown_engine (args : list string)
  (engine : Ultimate.AIEngine) (api_key : option string) :
  (forall status,
     UltimateReviewer.parse_options args engine api_key = SysExit status ->
     status = 1%Z
     /\ exists before value after,
          args = (before ++ "--engine" :: value :: after)%list
          /\ known_engine value = false)
  /\ (~ In "--engine" args -> ~ In "--api-key" args ->
      UltimateReviewer.parse_options args engine api_key
      = Done (engine, api_key)).
Proof.
  revert engine api_key.
  induction args as [| a IH | a b rest IH1 IH2] using parse_options_induction;
    intros engine api_key.
  - split; [discriminate | reflexivity].
  - split.
    + intros status. cbn [UltimateReviewer.parse_options].
      destruct (String.eqb a "--engine"); [discriminate|].
      destruct (String.eqb a "--api-key"); discriminate.
    + intros He Hk. cbn [UltimateReviewer.parse_options].
      destruct (String.eqb a "--engine"); [reflexivity|].
      destruct (String.eqb a "--api-key"); reflexivity.
  - split.
    + intros status. cbn [UltimateReviewer.parse_options].
      destruct (String.eqb_spec a "--engine") as [-> | Ha].
      * destruct (String.eqb (lower b) "gemini") eqn:Eg;
          [|destruct (String.eqb (lower b) "ollama") eqn:Eo;
            [|destruct (String.eqb (lower b) "auto") eqn:Eu]].
        1-3: intros H; apply IH1 in H as (-> & before & value & after & -> & Hv);
          (split; [reflexivity|]);
          exists ("--engine" :: b :: before), value, after; now split.
        intros [= <-]. split; [reflexivity|].
        exists [], b, rest. split; [reflexivity|].
        unfold known_engine. now rewrite Eg, Eo, Eu.
      * destruct (String.eqb a "--api-key").
        -- intros H; apply IH1 in H as (-> & before & value & after & -> & Hv).
           split; [reflexivity|].
           exists (a :: b :: before), value, after. now split.
        -- intros H; apply IH2 in H as (-> & before & value & after & E & Hv).
           split; [reflexivity|].
           exists (a :: before), value, after. cbn [app]. now rewrite <- E.
    + intros He Hk. cbn [UltimateReviewer.parse_options].
      destruct (String.eqb_spec a "--engine") as [-> | Ha];
        [elim He; now left|].
      destruct (String.eqb_spec a "--api-key") as [-> | Ha'];
        [elim Hk; now left|].
      apply IH2; intros H; [apply He | apply Hk]; now right.
Qed.

Lemma parse_options_exits_on_unknown_engine_witness :
  UltimateReviewer.parse_options ["notes.txt"; "-v"] Ultimate.AUTO None
  = Done (Ultimate.AUTO, None).
Proof.
  apply (parse_options_exits_on_unknown_engine ["notes.txt"; "-v"]
           Ultimate.AUTO None).
  - intros [H | [H | []]]; discriminate H.
  - intros [H | [H | []]]; discriminate H.
Defined.

Lemma known_engine_accepted (value : string) (rest : list string)
  (engine : Ultimate.AIEngine) (api_key : option string) :
  known_engine value = true ->
  exists engine',
    UltimateReviewer.parse_options ("--engine" :: value :: rest) engine api_key
    = UltimateReviewer.parse_options rest engine' api_key.
Proof.
  unfold known_engine. cbn [UltimateReviewer.parse_options String.eqb
    Ascii.eqb Bool.eqb andb].
  destruct (String.eqb (lower value) "gemini"); [eauto|].
  destruct (String.eqb (lower value) "ollama"); [eauto|].
  destruct (String.eqb (lower value) "auto"); [eauto | discriminate].
Qed.

(** Every exit of the option loop has the status 1. *)
Lemma parse_options_exit_status (args : list string) :
  forall engine api_key status,
    UltimateReviewer.parse_options args engine api_key = SysExit status ->
    status = 1%Z.
Proof.
  induction args as [| a IH | a b rest IH1 IH2] using parse_options_induction;
    intros engine api_key status; cbn [UltimateReviewer.parse_options].
  - discriminate.
  - destruct (String.eqb a "--engine"); [discriminate|].
    destruct (String.eqb a "--api-key"); discriminate.
  - destruct (String.eqb a "--engine").
    + destruct (String.eqb (lower b) "gemini"); [apply IH1|].
      destruct (String.eqb (lower b) "ollama"); [apply IH1|].
      destruct (String.eqb (lower b) "auto"); [apply IH1|].
      now intros [= <-].
    + destruct (String.eqb a "--api-key"); [apply IH1 | apply IH2].
Qed.

(** [main] of the ultimate reviewer exits with status 0 exactly for the
    usage text: fewer than two arguments, or [--help] or [-h] anywhere on
    the line, the script name and option values included.  Every other
    exit has status 1, and a report is written only when both keys of
    the input are present. *)
Theorem ultimate_main_exit_status (w : UltimateReviewer.world)
  (argv : list string) (data : input_data) :
  (UltimateReviewer.main w argv data = SysExit 0
   <-> List.length argv < 2 \/ In "--help" argv \/ In "-h" argv)
  /\ (forall status,
        UltimateReviewer.main w argv data = SysExit status ->
        status = 0%Z \/ status = 1%Z)
  /\ (forall report,
        UltimateReviewer.main w argv data = Done report ->
        code_snippet data <> None /\ review_comments data <> None).
Proof.
  assert (Hmem : forall x, UltimateReviewer.mem x argv = true <-> In x argv).
  { intros x. unfold UltimateReviewer.mem. rewrite existsb_exists. split.
    - intros (y & Hin & E). apply String.eqb_eq in E. now subst.
    - intros Hin. exists x. split; [assumption | apply String.eqb_refl]. }
  assert (Husage :
    ((List.length argv <? 2)%nat || UltimateReviewer.mem "--help" argv
     || UltimateReviewer.mem "-h" argv)%bool = true
    <-> List.length argv < 2 \/ In "--help" argv \/ In "-h" argv).
  { rewrite !orb_true_iff, Nat.ltb_lt, !Hmem. tauto. }
  unfold UltimateReviewer.main, UltimateReviewer.command_line.
  destruct ((List.length argv <? 2)%nat || UltimateReviewer.mem "--help" argv
            || UltimateReviewer.mem "-h" argv)%bool eqn:Eu.
  - split; [|split].
    + split; [intros _; now apply Husage | reflexivity].
    + intros status [= <-]. now left.
    + discriminate.
  - assert (Hno : ~ (List.length argv < 2 \/ In "--help" argv \/ In "-h" argv)).
    { intros H. apply Husage in H. congruence. }
    destruct argv as [|script [|input_file options]];
      [exfalso; apply Hno; left; simpl; lia
      |exfalso; apply Hno; left; simpl; lia|].
    pose proof (parse_options_exit_status options) as Hexit.
    destruct (UltimateReviewer.parse_options options Ultimate.AUTO None)
      as [[engine key]|status] eqn:Ep.
    + pose proof (init_exit_status w engine key) as Hinit.
      destruct data as [[code|] [comments|]];
        cbn [validate has_key String.eqb Ascii.eqb Bool.eqb code_snippet
             review_comments].
      * destruct (UltimateReviewer.__init__ w engine key) as [self|status'];
          cbn [UltimateReviewer.process_review code_snippet review_comments].
        -- split; [split; [discriminate | intros H; now elim Hno] |].
           split; [discriminate | intros report _; split; discriminate].
        -- specialize (Hinit status' eq_refl). subst status'.
           split; [split; [discriminate | intros H; now elim Hno] |].
           split; [intros status [= <-]; now right | discriminate].
      * split; [split; [discriminate | intros H; now elim Hno] |].
        split; [intros status [= <-]; now right | discriminate].
      * split; [split; [discriminate | intros H; now elim Hno] |].
        split; [intros status [= <-]; now right | discriminate].
      * split; [split; [discriminate | intros H; now elim Hno] |].
        split; [intros status [= <-]; now right | discriminate].
    + pose proof (Hexit _ _ _ Ep). subst status.
      split; [split; [discriminate | intros H; now elim Hno] |].
      split; [intros status [= <-]; now right | discriminate].
Qed.

Lemma ultimate_main_exit_status_witness :
  UltimateReviewer.main
    {| UltimateReviewer.GEMINI_AVAILABLE := false;
       UltimateReviewer.getenv_GEMINI_API_KEY := None;
       UltimateReviewer.get_version := fun _ => OtherException "down";
       UltimateReviewer.generate_content := fun _ => OtherException "none";
       UltimateReviewer.post := fun _ => OtherException "down" |}
    ["ultimate_reviewer.py"; "input.json"; "--api-key"; "-h"]
    {| code_snippet := None; review_comments := None |}
  = SysExit 0.
Proof.
  apply (ultimate_main_exit_status
           {| UltimateReviewer.GEMINI_AVAILABLE := false;
              UltimateReviewer.getenv_GEMINI_API_KEY := None;
              UltimateReviewer.get_version := fun _ => OtherException "down";
              UltimateReviewer.generate_content := fun _ => OtherException "none";
              UltimateReviewer.post := fun _ => OtherException "down" |}
           ["ultimate_reviewer.py"; "input.json"; "--api-key"; "-h"]
           {| code_snippet := None; review_comments := None |}).
  right. right. simpl. auto.
Defined.

(** ** The web route *)



(** The web route knows the engines by their exact lower-case names and
    takes every other name, and no name, for the automatic mode; an empty
    key counts as no key.  The command line takes the same names in any
    case of letters, agrees with the route on the exact names, and exits
    where the route falls back on the automatic mode. *)
Theorem web_and_command_line_engine_names (value : string)
  (key : option string) :
  let request := {| WebRoute.engine := Some value; WebRoute.api_key := key |} in
  (WebRoute.ai_engine request = Ultimate.GEMINI <-> value = "gemini")
  /\ (WebRoute.ai_engine request = Ultimate.OLLAMA <-> value = "ollama")
  /\ (WebRoute.key_argument request = None <-> truthy key = false)
  /\ (WebRoute.ai_engine request <> Ultimate.AUTO ->
      UltimateReviewer.parse_options ["--engine"; value] Ultimate.AUTO None
      = Done (WebRoute.ai_engine request, None))
  /\ (UltimateReviewer.parse_options ["--engine"; value] Ultimate.AUTO None
      = SysExit 1 ->
      WebRoute.ai_engine request = Ultimate.AUTO).
Proof.
  cbv zeta. unfold WebRoute.ai_engine, WebRoute.key_argument.
  cbn [WebRoute.engine WebRoute.api_key].
  split; [|split; [|split; [|split]]].
  - destruct (String.eqb_spec value "gemini") as [-> | H]; [tauto|].
    destruct (String.eqb value "ollama"); split; intros; try discriminate;
      contradiction.
  - destruct (String.eqb_spec value "gemini") as [-> | H];
      [split; discriminate|].
    destruct (String.eqb_spec value "ollama") as [-> | H']; [tauto|].
    split; intros; [discriminate | contradiction].
  - destruct key as [[|c k]|]; cbn [truthy]; split; intros;
      try discriminate; reflexivity.
  - destruct (String.eqb_spec value "gemini") as [-> | H]; [reflexivity|].
    destruct (String.eqb_spec value "ollama") as [-> | H']; [reflexivity|].
    intros Hne. now elim Hne.
  - destruct (String.eqb_spec value "gemini") as [-> | H]; [discriminate|].
    destruct (String.eqb_spec value "ollama") as [-> | H']; [discriminate|].
    reflexivity.
Qed.

Lemma web_and_command_line_engine_names_witness :
  UltimateReviewer.parse_options ["--engine"; "ollama"] Ultimate.AUTO None
  = Done (Ultimate.OLLAMA, None).
Proof.
  apply (web_and_command_line_engine_names "ollama" None). discriminate.
Defined.

(** ** Numbering of the comments *)

Lemma string_of_uint_digits (d : Decimal.uint) :
  all_in Digit (NilEmpty.string_of_uint d) = true.
Proof.
  induction d; simpl; auto.
Qed.

Lemma str_nat_injective (n m : nat) : str_nat n = str_nat m -> n = m.
Proof.
  unfold str_nat. intros H.
  assert (E : Some (Nat.to_uint n) = Some (Nat.to_uint m)).
  { rewrite <- !NilEmpty.usu. now rewrite H. }
  injection E as E.
  rewrite <- (DecimalNat.Unsigned.of_to n), <- (DecimalNat.Unsigned.of_to m).
  now rewrite E.
Qed.

Lemma digits_then_other (a b : string) (x y : ascii) (r s : string) :
  all_in Digit a = true -> all_in Digit b = true ->
  is_digit x = false -> is_digit y = false ->
  a ++ String x r = b ++ String y s ->
  a = b /\ r = s.
Proof.
  revert b. induction a as [|c a IH]; intros [|e b] Ha Hb Hx Hy H;
    simpl in *.
  - injection H as _ H. auto.
  - injection H as -> _. apply andb_true_iff in Hb as [Hb _]. congruence.
  - injection H as -> _. apply andb_true_iff in Ha as [Ha _]. congruence.
  - injection H as -> H.
    apply andb_true_iff in Ha as [_ Ha]. apply andb_true_iff in Hb as [_ Hb].
    destruct (IH b Ha Hb Hx Hy H) as [-> ->]. auto.
Qed.

Lemma append_cancel_r (c d t : string) : c ++ t = d ++ t -> c = d.
Proof.
  revert d. induction c as [|x c IH]; intros [|y d] H; simpl in *.
  - reflexivity.
  - exfalso. apply (f_equal String.length) in H. simpl in H.
    rewrite length_append in H. lia.
  - exfalso. apply (f_equal String.length) in H. simpl in H.
    rewrite length_append in H. lia.
  - injection H as -> H. now rewrite (IH d H).
Qed.

(** The line of a comment tells the comment and its place: two numbered
    lines are the same text only for the same index and the same comment,
    and two severity lines only for the same index. *)
Theorem numbered_line_tells_index_and_comment (i j : nat)
  (comment1 comment2 : string) :
  (numbered_line i comment1 = numbered_line j comment2 ->
   i = j /\ comment1 = comment2)
  /\ (severity_line i comment1 = severity_line j comment2 -> i = j).
Proof.
  split.
  - unfold numbered_line. intros H.
    change (str_nat (i + 1) ++ String "." (String " " (dquote ++ comment1 ++ dquote))
            = str_nat (j + 1) ++ String "." (String " " (dquote ++ comment2 ++ dquote)))
      in H.
    apply digits_then_other in H as [Hn Hrest];
      try apply string_of_uint_digits; try reflexivity.
    apply str_nat_injective in Hn. split; [lia|].
    injection Hrest as Hrest. now apply append_cancel_r in Hrest.
  - unfold severity_line. cbv zeta. intros H.
    change ("Comment " ++ str_nat (i + 1) ++ String ":" (String " "
              (value (analyze_comment_severity comment1) ++ " severity - "
               ++ get_contextual_tone (Member (analyze_comment_severity comment1))))
            = "Comment " ++ str_nat (j + 1) ++ String ":" (String " "
              (value (analyze_comment_severity comment2) ++ " severity - "
               ++ get_contextual_tone (Member (analyze_comment_severity comment2)))))
      in H.
    cbn [append] in H. injection H as H.
    apply digits_then_other in H as [Hn _];
      try apply string_of_uint_digits; try reflexivity.
    apply str_nat_injective in Hn. lia.
Qed.

Lemma numbered_line_tells_index_and_comment_witness :
  2 = 2 /\ "rename u" = "rename u".
Proof.
  apply (numbered_line_tells_index_and_comment 2 2 "rename u" "rename u").
  reflexivity.
Defined.
